(** * validate_feed.py: the RSS/Atom feed validator and its CLI driver

    A shallow embedding of [src/orchestrator/scripts/validate_feed.py].

    - Python strings are [string]; one [ascii] stands for one character.
    - The result dictionary has a fixed set of keys and is modelled as the
      record [ValidationResult]; Python's [None] is [None].
    - The function mutates its dictionary in place and may be left by an
      exception or by an early [return]; both are modelled by a small
      state-and-completion monad: an exception keeps the mutations made
      before it was raised, exactly as the shared dictionary does.
    - The network, the XML parser and the file system are outside the
      repository: [requests.get], [ET.fromstring] and [open] are
      parameters of the development; their documented library behaviour
      ([raise_for_status], [find], [findall], [findtext]) is written out.
    - [print] raises [UnicodeEncodeError] when standard output cannot
      encode a line; which lines it can encode is a parameter too. *)

From Stdlib Require Import String Ascii List ZArith Lia Bool.
From Stdlib Require Import DecimalString.
From Stdlib Require Strings.Byte.
Import ListNotations.

Local Open Scope string_scope.
Local Open Scope list_scope.
Local Open Scope Z_scope.

(** ** Python strings *)

Module PyStr.

(** Truth value of a string: [if s:] holds when [s] is not empty. *)
Definition truthy (s : string) : bool :=
  match s with
  | EmptyString => false
  | String _ _ => true
  end.

(** Truth value of an optional string ([None] and [""] are false). *)
Definition truthy_opt (o : option string) : bool :=
  match o with
  | None => false
  | Some s => truthy s
  end.

(** [str(n)] / [f"{n}"] for a Python integer: decimal, with a sign. *)
Definition str_int (n : Z) : string :=
  NilZero.string_of_int (Z.to_int n).

(** [c.isspace()] for a character with code point below 256. *)
Definition isspace (c : ascii) : bool :=
  let n := nat_of_ascii c in
  (((9 <=? n) && (n <=? 13)) || ((28 <=? n) && (n <=? 32))
   || (n =? 133) || (n =? 160))%nat.

Fixpoint lstrip (s : string) : string :=
  match s with
  | EmptyString => EmptyString
  | String c s' => if isspace c then lstrip s' else s
  end.

(** Strips trailing white space: a character is kept when something
    that is kept follows it, or when it is not white space itself. *)
Fixpoint rstrip (s : string) : string :=
  match s with
  | EmptyString => EmptyString
  | String c s' =>
      match rstrip s' with
      | EmptyString => if isspace c then EmptyString else String c EmptyString
      | r => String c r
      end
  end.

(** [s.strip()] *)
Definition strip (s : string) : string := rstrip (lstrip s).

(** [s.startswith(p)] *)
Definition startswith (p s : string) : bool := String.prefix p s.

(** [s[:n]] for [n >= 0] *)
Definition slice_to (n : nat) (s : string) : string := String.substring 0 n s.

End PyStr.

(** ** xml.etree.ElementTree elements *)

Module ET.

(** An element: its qualified tag, its text ([None] when the element has
    no character data before its first child) and its children in
    document order. *)
Inductive Element : Type :=
| Elem (tag : string) (text : option string) (children : list Element).

Definition tag (e : Element) : string :=
  match e with Elem t _ _ => t end.

Definition text (e : Element) : option string :=
  match e with Elem _ x _ => x end.

Definition children (e : Element) : list Element :=
  match e with Elem _ _ cs => cs end.

Definition has_tag (path : string) (c : Element) : bool :=
  String.eqb (tag c) path.

(** [e.findall(path)] for a plain tag: the children with that tag. *)
Definition findall (e : Element) (path : string) : list Element :=
  filter (has_tag path) (children e).

(** [e.find(path)]: the first such child, or [None]. *)
Definition find (e : Element) (path : string) : option Element :=
  List.find (has_tag path) (children e).

(** [e.findtext(path, default)]: the text of the first such child, the
    empty string when that child has no text, [default] when there is
    no such child. *)
Definition findtext (e : Element) (path : string) (default : string) : string :=
  match find e path with
  | Some c =>
      match text c with
      | Some s => s
      | None => ""
      end
  | None => default
  end.

End ET.

(** ** requests: responses and the exceptions of the try block *)

Record Response : Type := mkResponse {
  status_code : Z;
  reason : string;
  response_url : string;
  content : list Byte.byte
}.

(** The exceptions (all subclasses of [Exception]) that the calls of the
    try block can raise. [str(e)] is [msg]. *)
Inductive exn : Type :=
| Timeout (msg : string)                         (* requests.exceptions.Timeout *)
| HTTPError (msg : string) (response : Response) (* requests.exceptions.HTTPError *)
| ParseError (msg : string)                      (* xml.etree.ElementTree.ParseError *)
| OtherException (msg : string).                 (* any other Exception *)

(** [str(e)] *)
Definition str_exn (e : exn) : string :=
  match e with
  | Timeout msg => msg
  | HTTPError msg _ => msg
  | ParseError msg => msg
  | OtherException msg => msg
  end.

(** ** The result dictionary *)

Record ValidationResult : Type := mkResult {
  url : string;
  valid : bool;
  title : option string;
  item_count : Z;
  latest_date : option string;
  sample_headlines : list string;
  language : option string;
  errors : list string
}.

Definition set_valid (b : bool) (r : ValidationResult) : ValidationResult :=
  mkResult (url r) b (title r) (item_count r) (latest_date r)
           (sample_headlines r) (language r) (errors r).

Definition set_title (t : option string) (r : ValidationResult) : ValidationResult :=
  mkResult (url r) (valid r) t (item_count r) (latest_date r)
           (sample_headlines r) (language r) (errors r).

Definition set_item_count (n : Z) (r : ValidationResult) : ValidationResult :=
  mkResult (url r) (valid r) (title r) n (latest_date r)
           (sample_headlines r) (language r) (errors r).

Definition set_latest_date (d : option string) (r : ValidationResult) : ValidationResult :=
  mkResult (url r) (valid r) (title r) (item_count r) d
           (sample_headlines r) (language r) (errors r).

Definition set_language (l : option string) (r : ValidationResult) : ValidationResult :=
  mkResult (url r) (valid r) (title r) (item_count r) (latest_date r)
           (sample_headlines r) l (errors r).

(** [result["sample_headlines"].append(t)] *)
Definition append_headline (t : string) (r : ValidationResult) : ValidationResult :=
  mkResult (url r) (valid r) (title r) (item_count r) (latest_date r)
           (sample_headlines r ++ [t]) (language r) (errors r).

(** [result["errors"].append(m)] *)
Definition append_error (m : string) (r : ValidationResult) : ValidationResult :=
  mkResult (url r) (valid r) (title r) (item_count r) (latest_date r)
           (sample_headlines r) (language r) (errors r ++ [m]).

(** The dictionary built at the top of [validate_rss_feed]. *)
Definition initial_result (u : string) : ValidationResult :=
  {| url := u; valid := false; title := None; item_count := 0;
     latest_date := None; sample_headlines := []; language := None;
     errors := [] |}.

(** ** Control flow: state, exceptions, early return, exit *)

(** How a block of statements ends. *)
Inductive completion (A : Type) : Type :=
| Normal (a : A)        (* ran to its end *)
| Raised (e : exn)      (* an exception is propagating *)
| Returned              (* a [return result] was executed *)
| Exited (code : Z).    (* [sys.exit(code)] *)

Arguments Normal {A} a.
Arguments Raised {A} e.
Arguments Returned {A}.
Arguments Exited {A} code.

(** A statement over a mutable state [S]. *)
Definition M (S A : Type) : Type := S -> completion A * S.

Definition ret {S A} (a : A) : M S A := fun s => (Normal a, s).

Definition bind {S A B} (c : M S A) (k : A -> M S B) : M S B :=
  fun s =>
    match c s with
    | (Normal a, s') => k a s'
    | (Raised e, s') => (Raised e, s')
    | (Returned, s') => (Returned, s')
    | (Exited n, s') => (Exited n, s')
    end.

Definition raise {S A} (e : exn) : M S A := fun s => (Raised e, s).
Definition return_now {S A} : M S A := fun s => (Returned, s).
Definition sys_exit {S A} (code : Z) : M S A := fun s => (Exited code, s).
Definition get {S} : M S S := fun s => (Normal s, s).
Definition modify {S} (f : S -> S) : M S unit := fun s => (Normal tt, f s).

Declare Scope py_scope.
Delimit Scope py_scope with py.
Notation "x <- c ;; k" := (bind c (fun x => k))
  (at level 100, c at next level, right associativity) : py_scope.
Notation "c ;; k" := (bind c (fun _ => k))
  (at level 100, right associativity) : py_scope.
Local Open Scope py_scope.

(** [if b: c] *)
Definition when {S} (b : bool) (c : M S unit) : M S unit :=
  if b then c else ret tt.

(** [for x in l: f x] *)
Fixpoint for_each {S A} (l : list A) (f : A -> M S unit) : M S unit :=
  match l with
  | [] => ret tt
  | x :: l' => f x ;; for_each l' f
  end.

(** One [except] clause: the handler to run when the clause matches. *)
Definition except_clause (S : Type) : Type := exn -> option (M S unit).

Fixpoint select_handler {S} (clauses : list (except_clause S)) (e : exn)
  : option (M S unit) :=
  match clauses with
  | [] => None
  | c :: cs =>
      match c e with
      | Some h => Some h
      | None => select_handler cs e
      end
  end.

(** [try: body except ...]: the first matching clause handles a raised
    exception, in the state the body left; an exception no clause
    matches, an early return and an exit pass through. *)
Definition try_except {S} (body : M S unit) (clauses : list (except_clause S))
  : M S unit :=
  fun s =>
    match body s with
    | (Raised e, s') =>
        match select_handler clauses e with
        | Some h => h s'
        | None => (Raised e, s')
        end
    | other => other
    end.

(** The parsed command line: [args.url], [args.batch], [args.verbose]
    and [args.json]. *)
Record Args : Type := mkArgs {
  args_url : option string;
  args_batch : option string;
  args_verbose : bool;
  args_json : bool
}.

(** ** Vocabulary of the specification *)

(** The two recognized root tags. *)
Definition is_rss (root : ET.Element) : bool :=
  String.eqb (ET.tag root) "rss".

Definition is_atom (root : ET.Element) : bool :=
  String.eqb (ET.tag root) "{http://www.w3.org/2005/Atom}feed".

(** The items of an RSS document: the [item] children of its first
    [channel] child, none when there is no channel. *)
Definition rss_items (root : ET.Element) : list ET.Element :=
  match ET.find root "channel" with
  | Some channel => ET.findall channel "item"
  | None => []
  end.

(** The entries of an Atom document. *)
Definition atom_entries (root : ET.Element) : list ET.Element :=
  ET.findall root "{http://www.w3.org/2005/Atom}entry".

(** The item list of a recognized feed. *)
Definition feed_items (root : ET.Element) : list ET.Element :=
  if is_rss root then rss_items root else atom_entries root.

(** The title text of an RSS item and of an Atom entry, empty when the
    element has none. *)
Definition rss_item_title (item : ET.Element) : string :=
  ET.findtext item "title" "".

Definition atom_entry_title (entry : ET.Element) : string :=
  ET.findtext entry "{http://www.w3.org/2005/Atom}title" "".

Definition item_title (root : ET.Element) (item : ET.Element) : string :=
  if is_rss root then rss_item_title item else atom_entry_title item.

(** The [pubDate] text of an RSS item, empty when the item has none. *)
Definition pub_date (item : ET.Element) : string :=
  ET.findtext item "pubDate" "".

(** [d] is what the specification calls the publish date of the first
    item of [items], in order, that has a non-empty one: [Some] of that
    text, or [None] when no item of [items] has one. *)
Definition first_pub_date_of (items : list ET.Element) (d : option string) : Prop :=
  (forall i item,
      nth_error items i = Some item ->
      pub_date item <> "" ->
      (forall j earlier, (j < i)%nat -> nth_error items j = Some earlier ->
                         pub_date earlier = "") ->
      d = Some (pub_date item))
  /\ ((forall item, In item items -> pub_date item = "") -> d = None).

(** The date recorded after scanning [dates] when [d] was recorded
    before: [d] when it is already a non-empty date, otherwise the first
    non-empty date met, otherwise [d] still. *)
Definition keep_or_first (d : option string) (dates : list string) : option string :=
  if PyStr.truthy_opt d then d
  else match List.find PyStr.truthy dates with
       | Some x => Some x
       | None => d
       end.

(** The statuses for which the fetch ends in an HTTP error. *)
Definition http_error_status (resp : Response) : bool :=
  (400 <=? status_code resp) && (status_code resp <? 600).

(** A status outside the 2xx range. *)
Definition non_2xx (resp : Response) : bool :=
  negb ((200 <=? status_code resp) && (status_code resp <? 300)).

(** The error taxonomy of section 7: the entry recorded for an exception. *)
Definition failure_message (e : exn) : string :=
  match e with
  | Timeout _ => "Request timed out"
  | HTTPError _ response => "HTTP error: " ++ PyStr.str_int (status_code response)
  | ParseError msg => "XML parse error: " ++ msg
  | OtherException msg => "Error: " ++ msg
  end.

(** The entries the two validation checks add. *)
Definition check_errors (count : Z) (headlines : list string) : list string :=
  (if count <? 2 then ["Feed has fewer than 2 items"] else [])
  ++ (match headlines with
      | [] => ["No headlines found in feed"]
      | _ => []
      end).

(** A string is not empty. *)
Definition non_empty (s : string) : bool := negb (String.eqb s "").

(** The first five elements of an item list. *)
Definition first_five (items : list ET.Element) : list ET.Element :=
  firstn 5 items.

(** The result for an RSS document, over its item list. *)
Definition rss_result (u : string) (root : ET.Element) : ValidationResult :=
  let items := rss_items root in
  let headlines := filter non_empty (map rss_item_title (first_five items)) in
  let errs := check_errors (Z.of_nat (length items)) headlines in
  {| url := u;
     valid := match errs with [] => true | _ :: _ => false end;
     title := option_map (fun channel => ET.findtext channel "title" "")
                         (ET.find root "channel");
     item_count := Z.of_nat (length items);
     latest_date := List.find non_empty (map pub_date (first_five items));
     sample_headlines := headlines;
     language := option_map (fun channel => ET.findtext channel "language" "")
                            (ET.find root "channel");
     errors := errs |}.

(** The result for an Atom document, over its entry list. *)
Definition atom_result (u : string) (root : ET.Element) : ValidationResult :=
  let entries := atom_entries root in
  let headlines := filter non_empty (map atom_entry_title (first_five entries)) in
  let errs := check_errors (Z.of_nat (length entries)) headlines in
  {| url := u;
     valid := match errs with [] => true | _ :: _ => false end;
     title := Some (ET.findtext root "{http://www.w3.org/2005/Atom}title" "");
     item_count := Z.of_nat (length entries);
     latest_date := None;
     sample_headlines := headlines;
     language := None;
     errors := errs |}.

(** [errors] is empty. *)
Definition no_errors (r : ValidationResult) : bool :=
  match errors r with
  | [] => true
  | _ :: _ => false
  end.

(** ** Standard output *)

(** What [main] writes to standard output, one entry per [print]. *)
Inductive output : Type :=
| OutHelp                                    (* parser.print_help() *)
| OutValidating (u : string)                 (* "\nValidating: {url}" *)
| OutStatus (ok : bool) (u : string)         (* "{status}: {url}" *)
| OutTitle (t : string)                      (* "  Title: {title}" *)
| OutItems (n : Z)                           (* "  Items: {item_count}" *)
| OutSample (s : string)                     (* "  Sample: {headline[:60]}..." *)
| OutError (err : string)                    (* "  Error: {err}" *)
| OutJson (results : list ValidationResult). (* json.dumps(results, indent=2) *)

(** The entries whose text is ASCII whatever the feeds hold: the usage
    text, the item count, and the JSON dump ([json.dumps] escapes every
    non-ASCII character by default). The other entries carry the status
    mark (a non-ASCII character) or text taken from the URL, the feed or
    an exception message. *)
Definition ascii_only (o : output) : bool :=
  match o with
  | OutHelp => true
  | OutItems _ => true
  | OutJson _ => true
  | _ => false
  end.

(** ** Sample documents and environments *)

Module Samples.

(** An RSS item with an optional title and an optional pubDate. *)
Definition item (t d : option string) : ET.Element :=
  ET.Elem "item" None
    ((match t with Some s => [ET.Elem "title" (Some s) []] | None => [] end)
     ++ (match d with Some s => [ET.Elem "pubDate" (Some s) []] | None => [] end)).

Definition rss (items : list ET.Element) : ET.Element :=
  ET.Elem "rss" None
    [ET.Elem "channel" None (ET.Elem "title" (Some "News") [] :: items)].

Definition entry (t : string) : ET.Element :=
  ET.Elem "{http://www.w3.org/2005/Atom}entry" None
    [ET.Elem "{http://www.w3.org/2005/Atom}title" (Some t) []].

Definition atom (entries : list ET.Element) : ET.Element :=
  ET.Elem "{http://www.w3.org/2005/Atom}feed" None
    (ET.Elem "{http://www.w3.org/2005/Atom}title" (Some "Test Feed") [] :: entries).

(** Six items with titles; only the sixth has a pubDate. *)
Definition late_date_feed : ET.Element :=
  rss [item (Some "a") None; item (Some "b") None; item (Some "c") None;
       item (Some "d") None; item (Some "e") None;
       item (Some "f") (Some "Mon, 02 Nov 2026 10:00:00 GMT")].

(** Three items; the second is the first one with a pubDate. *)
Definition dated_feed : ET.Element :=
  rss [item (Some "a") None; item None (Some "Tue, 03 Nov 2026");
       item (Some "c") (Some "Mon, 02 Nov 2026")].

(** Seven items, each with a title. *)
Definition seven_feed : ET.Element :=
  rss [item (Some "h1") None; item (Some "h2") None; item (Some "h3") None;
       item (Some "h4") None; item (Some "h5") None; item (Some "h6") None;
       item (Some "h7") None].

(** Two items with titles. *)
Definition two_item_feed : ET.Element :=
  rss [item (Some "first") None; item (Some "second") None].

Definition html_page : ET.Element := ET.Elem "html" None [ET.Elem "body" None []].

Definition bare_rss : ET.Element := ET.Elem "rss" None [].

(** A server that answers every request with the given status and an
    empty body; the world is trivial. *)
Definition serve (status : Z) (u : string) (w : unit) : (exn + Response) * unit :=
  (inr (mkResponse status "" u []), w).

(** A network on which every request times out. *)
Definition unreachable (u : string) (w : unit) : (exn + Response) * unit :=
  (inl (Timeout "timed out"), w).

(** A network that serves [good] with status 200 and times out on every
    other URL. *)
Definition serve_only (good : string) (u : string) (w : unit)
  : (exn + Response) * unit :=
  if String.eqb u good then (inr (mkResponse 200 "OK" u []), w)
  else (inl (Timeout "timed out"), w).

(** A parser that returns the given root for every body. *)
Definition parse_as (root : ET.Element) (body : list Byte.byte) : exn + ET.Element :=
  inr root.

(** The parser on an empty body. *)
Definition parse_empty (body : list Byte.byte) : exn + ET.Element :=
  inl (ParseError "no element found: line 1, column 0").

(** A file system with no readable file. *)
Definition no_files (path : string) (w : unit) : (exn + list string) * unit :=
  (inl (OtherException "[Errno 2] No such file or directory"), w).

(** A file system in which every path holds the given lines. *)
Definition file_with (lines : list string) (path : string) (w : unit)
  : (exn + list string) * unit :=
  (inr lines, w).

(** A line of a text file, with its line end. *)
Definition line (s : string) : string :=
  s ++ String (ascii_of_nat 10) EmptyString.

(** A batch file: a comment, an empty line and two URLs. *)
Definition batch_lines : list string :=
  [line "# feeds"; line ""; line "  http://good.example/feed  ";
   line "http://bad.example/feed"].

(** A network that refuses every connection. *)
Definition refused (u : string) (w : unit) : (exn + Response) * unit :=
(inl (OtherException "Connection refused"), w).

(** The first five items of [late_date_feed], without the sixth. *)
Definition five_feed : ET.Element :=
rss [item (Some "a") None; item (Some "b") None; item (Some "c") None;
     item (Some "d") None; item (Some "e") None].

(** A server with two feeds: a one-byte body under the given URL, an
    empty body under every other URL. *)
Definition serve_two (long : string) (u : string) (w : unit)
  : (exn + Response) * unit :=
(inr (mkResponse 200 "OK" u (if String.eqb u long then [Byte.x01] else [])), w).

(** The parser for [serve_two]: the first root for the one-byte body, the
    second for the empty one. *)
Definition parse_two (long short : ET.Element) (body : list Byte.byte)
  : exn + ET.Element :=
match body with
| [] => inr short
| _ :: _ => inr long
end.

(** A batch file of comments and blank lines only. *)
Definition comment_lines : list string :=
[line "# no feeds yet"; line ""; line "   "].

(** A batch file with an indented comment. *)
Definition indented_comment_lines : list string :=
[line "http://good.example/feed"; line "  # draft"].

(** A standard output that can encode every character. *)
Definition utf8_stdout (o : output) : bool := true.

(** A standard output whose encoding lacks the status marks (the sample
    texts themselves are ASCII). *)
Definition legacy_stdout (o : output) : bool :=
  match o with
  | OutStatus _ _ => false
  | _ => true
  end.

End Samples.

(** ** validate_rss_feed *)

Section Tool.

(** The state of the outside world (network, file system). *)
Variable World : Type.

(** [requests.get(url, headers=headers, timeout=15)]: a response, or the
    exception the call raises. *)
Variable requests_get : string -> World -> (exn + Response) * World.

(** [ET.fromstring(response.content)]: the root element, or the
    exception the parser raises. *)
Variable ET_fromstring : list Byte.byte -> exn + ET.Element.

(** [open(path)] followed by the iteration over its lines (each line
    with its line end): the lines, or the exception raised. *)
Variable open_lines : string -> World -> (exn + list string) * World.

(** Whether the encoding of standard output can encode the text of an
    entry; [print] raises [UnicodeEncodeError] when it cannot. *)
Variable stdout_encodes : output -> bool.

(** The state of one call: the result dictionary and the world. *)
Definition St : Type := (ValidationResult * World)%type.

(** An in-place update of the result dictionary. *)
Definition update (f : ValidationResult -> ValidationResult) : M St unit :=
  modify (fun s => (f (fst s), snd s)).

(** Reading a key of the result dictionary. *)
Definition lookup {A} (key : ValidationResult -> A) : M St A :=
  fun s => (Normal (key (fst s)), s).

Definition do_requests_get (u : string) : M St Response :=
  fun s =>
    match requests_get u (snd s) with
    | (inl e, w') => (Raised e, (fst s, w'))
    | (inr resp, w') => (Normal resp, (fst s, w'))
    end.

(** [response.raise_for_status()] of the requests library: raises
    [HTTPError] carrying the response exactly for the client error
    statuses (400 to 499) and the server error statuses (500 to 599). *)
Definition raise_for_status (resp : Response) : M St unit :=
  if (400 <=? status_code resp) && (status_code resp <? 500) then
    raise (HTTPError (PyStr.str_int (status_code resp) ++ " Client Error: "
                        ++ reason resp ++ " for url: " ++ response_url resp)
                     resp)
  else if (500 <=? status_code resp) && (status_code resp <? 600) then
    raise (HTTPError (PyStr.str_int (status_code resp) ++ " Server Error: "
                        ++ reason resp ++ " for url: " ++ response_url resp)
                     resp)
  else ret tt.

Definition do_fromstring (body : list Byte.byte) : M St ET.Element :=
  match ET_fromstring body with
  | inl e => raise e
  | inr root => ret root
  end.

(** Lines 58-66: the body of the loop over the first RSS items. *)
Definition rss_item_step (item : ET.Element) : M St unit :=
  let title := ET.findtext item "title" "" in
  when (PyStr.truthy title) (update (append_headline title)) ;;
  let pub_date := ET.findtext item "pubDate" "" in
  latest <- lookup latest_date ;;
  when (PyStr.truthy pub_date && negb (PyStr.truthy_opt latest))
       (update (set_latest_date (Some pub_date))).

(** Lines 75-78: the body of the loop over the first Atom entries. *)
Definition atom_entry_step (entry : ET.Element) : M St unit :=
  let title := ET.findtext entry "{http://www.w3.org/2005/Atom}title" "" in
  when (PyStr.truthy title) (update (append_headline title)).

(** Lines 48-66: the RSS branch. *)
Definition rss_branch (root : ET.Element) : M St unit :=
  match ET.find root "channel" with
  | Some channel =>
      update (set_title (Some (ET.findtext channel "title" ""))) ;;
      update (set_language (Some (ET.findtext channel "language" ""))) ;;
      let items := ET.findall channel "item" in
      update (set_item_count (Z.of_nat (length items))) ;;
      for_each (firstn 5 items) rss_item_step
  | None => ret tt
  end.

(** Lines 68-78: the Atom branch. *)
Definition atom_branch (root : ET.Element) : M St unit :=
  update (set_title (Some (ET.findtext root "{http://www.w3.org/2005/Atom}title" ""))) ;;
  let entries := ET.findall root "{http://www.w3.org/2005/Atom}entry" in
  update (set_item_count (Z.of_nat (length entries))) ;;
  for_each (firstn 5 entries) atom_entry_step.

(** Lines 83-90: the validation checks. *)
Definition validation_checks : M St unit :=
  count <- lookup item_count ;;
  when (count <? 2) (update (append_error "Feed has fewer than 2 items")) ;;
  headlines <- lookup sample_headlines ;;
  when (match headlines with [] => true | _ => false end)
       (update (append_error "No headlines found in feed")) ;;
  errs <- lookup errors ;;
  update (set_valid (Z.of_nat (length errs) =? 0)).

(** Lines 37-90: the body of the try block. *)
Definition try_body (u : string) : M St unit :=
  response <- do_requests_get u ;;
  raise_for_status response ;;
  root <- do_fromstring (content response) ;;
  (if String.eqb (ET.tag root) "rss" then
     rss_branch root
   else if String.eqb (ET.tag root) "{http://www.w3.org/2005/Atom}feed" then
     atom_branch root
   else
     update (append_error ("Unknown feed format: " ++ ET.tag root)) ;;
     return_now) ;;
  validation_checks.

(** Lines 92-99: the except clauses, in source order. *)
Definition except_Timeout : except_clause St :=
  fun e =>
    match e with
    | Timeout _ => Some (update (append_error "Request timed out"))
    | _ => None
    end.

Definition except_HTTPError : except_clause St :=
  fun e =>
    match e with
    | HTTPError _ response =>
        Some (update (append_error
                        ("HTTP error: " ++ PyStr.str_int (status_code response))))
    | _ => None
    end.

Definition except_ParseError : except_clause St :=
  fun e =>
    match e with
    | ParseError msg => Some (update (append_error ("XML parse error: " ++ msg)))
    | _ => None
    end.

(** [except Exception as e]: every exception of [exn] is an instance. *)
Definition except_Exception : except_clause St :=
  fun e => Some (update (append_error ("Error: " ++ str_exn e))).

(** [validate_rss_feed(url, verbose)]: the dictionary is created, the
    try statement runs on it, and the function ends with the dictionary
    both at line 81 and at line 101. *)
Definition validate_rss_feed (u : string) (verbose : bool)
  : M World ValidationResult :=
  fun w =>
    match try_except (try_body u)
            [except_Timeout; except_HTTPError; except_ParseError; except_Exception]
            (initial_result u, w)
    with
    | (Normal _, s) => (Normal (fst s), snd s)
    | (Returned, s) => (Normal (fst s), snd s)
    | (Raised e, s) => (Raised e, snd s)
    | (Exited code, s) => (Exited code, snd s)
    end.

(** ** main *)

(** The state of the process: what was printed so far, and the world. *)
Definition MainSt : Type := (list output * World)%type.

(** Whether [print] succeeds on an entry: ASCII text always encodes. *)
Definition stdout_accepts (o : output) : bool :=
  ascii_only o || stdout_encodes o.

(** [print(...)]: the text is encoded and written, or
    [UnicodeEncodeError] (an [Exception] like any other) is raised and
    nothing of the line is written. *)
Definition print (o : output) : M MainSt unit :=
  fun s =>
    if stdout_accepts o
    then (Normal tt, (fst s ++ [o], snd s))
    else (Raised (OtherException "UnicodeEncodeError"), s).

(** [parser.print_help()]: the usage text, which is ASCII. *)
Definition print_help : M MainSt unit :=
  modify (fun s => (fst s ++ [OutHelp], snd s)).

(** A call of a function that only touches the world. *)
Definition call {A} (c : M World A) : M MainSt A :=
  fun s =>
    match c (snd s) with
    | (k, w') => (k, (fst s, w'))
    end.

Definition do_open_lines (path : string) : M MainSt (list string) :=
  fun s =>
    match open_lines path (snd s) with
    | (inl e, w') => (Raised e, (fst s, w'))
    | (inr lines, w') => (Normal lines, (fst s, w'))
    end.

(** The value of an optional argument once it was tested to be truthy. *)
Definition value (o : option string) : string :=
  match o with
  | Some s => s
  | None => ""
  end.

(** Lines 113-121: the list of URLs to validate. *)
Definition read_urls (args : Args) : M MainSt (list string) :=
  if PyStr.truthy_opt (args_batch args) then
    lines <- do_open_lines (value (args_batch args)) ;;
    ret (map PyStr.strip
           (filter (fun line => PyStr.truthy (PyStr.strip line)
                                && negb (PyStr.startswith "#" line))
                   lines))
  else if PyStr.truthy_opt (args_url args) then
    ret [value (args_url args)]
  else
    print_help ;;
    sys_exit 1.

(** Lines 131-141: the human-readable report of one result. *)
Definition report (u : string) (result : ValidationResult) : M MainSt unit :=
  print (OutStatus (valid result) u) ;;
  when (PyStr.truthy_opt (title result)) (print (OutTitle (value (title result)))) ;;
  print (OutItems (item_count result)) ;;
  match sample_headlines result with
  | headline :: _ => print (OutSample (PyStr.slice_to 60 headline))
  | [] => ret tt
  end ;;
  match errors result with
  | [] => ret tt
  | errs => for_each errs (fun err => print (OutError err))
  end.

(** Lines 123-141: the loop over the URLs; [results] is the list built
    so far. *)
Fixpoint validate_all (args : Args) (urls : list string)
         (results : list ValidationResult) : M MainSt (list ValidationResult) :=
  match urls with
  | [] => ret results
  | u :: urls' =>
      when (args_verbose args && negb (args_json args)) (print (OutValidating u)) ;;
      result <- call (validate_rss_feed u (args_verbose args)) ;;
      let results := results ++ [result] in
      when (negb (args_json args)) (report u result) ;;
      validate_all args urls' results
  end.

(** [main()], after [parser.parse_args()] returned [args]. *)
Definition main (args : Args) : M MainSt unit :=
  urls <- read_urls args ;;
  results <- validate_all args urls [] ;;
  when (args_json args) (print (OutJson results)) ;;
  when (negb (forallb valid results)) (sys_exit 1).

(** The exit status of the Python process: [sys.exit(n)] gives [n], an
    uncaught exception gives 1, the normal end of the script gives 0. *)
Definition exit_status {A} (c : completion A) : Z :=
  match c with
  | Normal _ => 0
  | Returned => 0
  | Exited code => code
  | Raised _ => 1
  end.

Definition run_main (args : Args) (w : World) : Z * list output * World :=
  match main args ([], w) with
  | (c, s) => (exit_status c, fst s, snd s)
  end.

(** The URL yields a document: the fetch returns a response that
    [raise_for_status] accepts and whose body parses to [root]. *)
Definition yields_document (u : string) (w : World) (root : ET.Element)
           (w1 : World) : Prop :=
  exists resp,
    requests_get u w = (inr resp, w1)
    /\ http_error_status resp = false
    /\ ET_fromstring (content resp) = inr root.

(** The ways a call of the validator ends, after sections 4.1 and 7 of
    the specification: which result belongs to which situation. *)
Inductive validation (u : string) (w : World)
  : ValidationResult -> World -> Prop :=
| fetch_fails e w1 :
    requests_get u w = (inl e, w1) ->
    validation u w (append_error (failure_message e) (initial_result u)) w1
| status_fails resp w1 :
    requests_get u w = (inr resp, w1) ->
    http_error_status resp = true ->
    validation u w
      (append_error ("HTTP error: " ++ PyStr.str_int (status_code resp))
                    (initial_result u)) w1
| parse_fails resp w1 e :
    requests_get u w = (inr resp, w1) ->
    http_error_status resp = false ->
    ET_fromstring (content resp) = inl e ->
    validation u w (append_error (failure_message e) (initial_result u)) w1
| unknown_format root w1 :
    yields_document u w root w1 ->
    is_rss root = false ->
    is_atom root = false ->
    validation u w
      (append_error ("Unknown feed format: " ++ ET.tag root) (initial_result u)) w1
| rss_document root w1 :
    yields_document u w root w1 ->
    is_rss root = true ->
    validation u w (rss_result u root) w1
| atom_document root w1 :
    yields_document u w root w1 ->
    is_rss root = false ->
    is_atom root = true ->
    validation u w (atom_result u root) w1.

(** The result for a response that [raise_for_status] accepts: what the
    parser makes of the body decides, the status plays no part. *)
Definition parsed_result (u : string) (body : list Byte.byte) : ValidationResult :=
  match ET_fromstring body with
  | inl e => append_error (failure_message e) (initial_result u)
  | inr root =>
      if is_rss root then rss_result u root
      else if is_atom root then atom_result u root
      else append_error ("Unknown feed format: " ++ ET.tag root) (initial_result u)
  end.

(** The results of validating [urls] one after the other from world
    [w], in input order, and the world left behind. *)
Inductive processes (verbose : bool)
  : list string -> World -> list ValidationResult -> World -> Prop :=
| processes_nil w : processes verbose [] w [] w
| processes_cons u urls w r w1 rs w2 :
    validate_rss_feed u verbose w = (Normal r, w1) ->
    processes verbose urls w1 rs w2 ->
    processes verbose (u :: urls) w (r :: rs) w2.

(** The lines of the human-readable report of one result. *)
Definition report_of (u : string) (r : ValidationResult) : list output :=
  [OutStatus (valid r) u]
  ++ (if PyStr.truthy_opt (title r) then [OutTitle (value (title r))] else [])
  ++ [OutItems (item_count r)]
  ++ (match sample_headlines r with
      | headline :: _ => [OutSample (PyStr.slice_to 60 headline)]
      | [] => []
      end)
  ++ map OutError (errors r).

(** What [main] prints for the results [rs] of the URLs [urls]. *)
Fixpoint reports_of (args : Args) (urls : list string)
         (rs : list ValidationResult) : list output :=
  match urls, rs with
  | u :: urls', r :: rs' =>
      (if args_verbose args then [OutValidating u] else [])
      ++ report_of u r ++ reports_of args urls' rs'
  | _, _ => []
  end.

(** The status lines of a human-readable report. *)
Fixpoint status_lines (out : list output) : list (bool * string) :=
  match out with
  | [] => []
  | OutStatus ok u :: out' => (ok, u) :: status_lines out'
  | _ :: out' => status_lines out'
  end.


(** ** Runs of the pieces of [validate_rss_feed] *)

Lemma length_zero_iff_nil {A} (l : list A) :
  (Z.of_nat (length l) =? 0) = match l with [] => true | _ :: _ => false end.
Proof. destruct l; reflexivity. Qed.

Lemma truthy_true_iff (s : string) : PyStr.truthy s = true <-> s <> "".
Proof. destruct s; simpl; split; intro H; congruence. Qed.

Lemma truthy_false_iff (s : string) : PyStr.truthy s = false <-> s = "".
Proof. destruct s; simpl; split; intro H; congruence. Qed.

(** The Atom loop appends the non-empty titles, in order, and touches
    nothing else. *)
Lemma atom_loop_run (entries : list ET.Element) :
  forall (r : ValidationResult) (w : World),
    for_each entries atom_entry_step (r, w) =
    (Normal tt,
     (mkResult (url r) (valid r) (title r) (item_count r) (latest_date r)
               (sample_headlines r
                ++ filter PyStr.truthy (map atom_entry_title entries))
               (language r) (errors r), w)).
Proof.
  induction entries as [| e es IH]; intros r w.
  - destruct r; simpl. rewrite app_nil_r. reflexivity.
  - simpl. unfold bind at 1. unfold atom_entry_step, when.
    fold (atom_entry_title e).
    destruct (PyStr.truthy (atom_entry_title e)) eqn:Ht; simpl.
    + rewrite IH. simpl. rewrite <- app_assoc. reflexivity.
    + rewrite IH. reflexivity.
Qed.

Lemma rss_loop_run (items : list ET.Element) :
  forall (r : ValidationResult) (w : World),
    for_each items rss_item_step (r, w) =
    (Normal tt,
     (mkResult (url r) (valid r) (title r) (item_count r)
               (keep_or_first (latest_date r) (map pub_date items))
               (sample_headlines r
                ++ filter PyStr.truthy (map rss_item_title items))
               (language r) (errors r), w)).
Proof.
  induction items as [| e es IH]; intros r w.
  - destruct r as [u v t n d h l er]; simpl. rewrite app_nil_r.
    unfold keep_or_first. simpl. destruct (PyStr.truthy_opt d); reflexivity.
  - simpl. unfold bind at 1. unfold rss_item_step.
    fold (rss_item_title e). fold (pub_date e).
    unfold bind, when, lookup, update, modify.
    destruct (PyStr.truthy (rss_item_title e)) eqn:Ht;
      destruct (PyStr.truthy (pub_date e)) eqn:Hp;
      destruct r as [u v t n d h l er]; simpl;
      destruct (PyStr.truthy_opt d) eqn:Hd; simpl;
      rewrite IH; simpl; unfold keep_or_first; simpl;
      rewrite ?Hd, ?Hp; simpl; rewrite <- ?app_assoc; reflexivity.
Qed.

Lemma validation_checks_run (r : ValidationResult) (w : World) :
  validation_checks (r, w) =
  (Normal tt,
   (mkResult (url r)
             (match errors r ++ check_errors (item_count r) (sample_headlines r) with
              | [] => true
              | _ :: _ => false
              end)
             (title r) (item_count r) (latest_date r) (sample_headlines r)
             (language r)
             (errors r ++ check_errors (item_count r) (sample_headlines r)), w)).
Proof.
  destruct r as [u v t n d h l er].
  unfold validation_checks, check_errors, bind, when, lookup, update, modify.
  simpl.
  destruct (n <? 2); destruct h as [| h0 hs];
    unfold set_valid, append_error; simpl;
    rewrite length_zero_iff_nil, ?app_nil_r, <- ?app_assoc; simpl;
    reflexivity.
Qed.

Lemma raise_for_status_ok (resp : Response) (s : St) :
  http_error_status resp = false ->
  raise_for_status resp s = (Normal tt, s).
Proof.
  unfold http_error_status, raise_for_status. intro H.
  destruct (400 <=? status_code resp) eqn:H4;
    destruct (status_code resp <? 500) eqn:H5;
    destruct (500 <=? status_code resp) eqn:H6;
    destruct (status_code resp <? 600) eqn:H7;
    simpl in *; try reflexivity; try discriminate; lia.
Qed.

Lemma raise_for_status_error (resp : Response) (s : St) :
  http_error_status resp = true ->
  exists msg, raise_for_status resp s = (Raised (HTTPError msg resp), s).
Proof.
  unfold http_error_status, raise_for_status. intro H.
  destruct (400 <=? status_code resp) eqn:H4;
    destruct (status_code resp <? 500) eqn:H5;
    destruct (500 <=? status_code resp) eqn:H6;
    destruct (status_code resp <? 600) eqn:H7;
    simpl in *; try discriminate; try (eexists; reflexivity); lia.
Qed.

(** *** The five ways a call ends *)

(** The fetch raises: the matching except clause records one entry on
    the initial dictionary. *)
Lemma validate_fetch_raises u verbose w e w1 :
  requests_get u w = (inl e, w1) ->
  validate_rss_feed u verbose w =
  (Normal (append_error (failure_message e) (initial_result u)), w1).
Proof.
  intro Hget.
  unfold validate_rss_feed, try_except, try_body.
  unfold bind at 1. unfold do_requests_get. simpl. rewrite Hget.
  destruct e; reflexivity.
Qed.

(** The status is a client or server error. *)
Lemma validate_http_error u verbose w resp w1 :
  requests_get u w = (inr resp, w1) ->
  http_error_status resp = true ->
  validate_rss_feed u verbose w =
  (Normal (append_error ("HTTP error: " ++ PyStr.str_int (status_code resp))
                        (initial_result u)), w1).
Proof.
  intros Hget Hst.
  unfold validate_rss_feed, try_except, try_body.
  unfold bind at 1. unfold do_requests_get. simpl. rewrite Hget.
  unfold bind at 1.
  destruct (raise_for_status_error resp (initial_result u, w1) Hst) as [msg Hr].
  rewrite Hr. reflexivity.
Qed.

(** The parser raises. *)
Lemma validate_parse_raises u verbose w resp w1 e :
  requests_get u w = (inr resp, w1) ->
  http_error_status resp = false ->
  ET_fromstring (content resp) = inl e ->
  validate_rss_feed u verbose w =
  (Normal (append_error (failure_message e) (initial_result u)), w1).
Proof.
  intros Hget Hst Hparse.
  unfold validate_rss_feed, try_except, try_body.
  unfold bind at 1. unfold do_requests_get. simpl. rewrite Hget.
  unfold bind at 1. rewrite (raise_for_status_ok _ _ Hst).
  unfold bind at 1. unfold do_fromstring. rewrite Hparse.
  destruct e; reflexivity.
Qed.

(** The root tag is not recognized. *)
Lemma validate_unknown_format u verbose w root w1 :
  yields_document u w root w1 ->
  is_rss root = false ->
  is_atom root = false ->
  validate_rss_feed u verbose w =
  (Normal (append_error ("Unknown feed format: " ++ ET.tag root)
                        (initial_result u)), w1).
Proof.
  intros (resp & Hget & Hst & Hparse) Hrss Hatom.
  unfold is_rss in Hrss. unfold is_atom in Hatom.
  unfold validate_rss_feed, try_except, try_body.
  unfold bind at 1. unfold do_requests_get. simpl. rewrite Hget.
  unfold bind at 1. rewrite (raise_for_status_ok _ _ Hst).
  unfold bind at 1. unfold do_fromstring. rewrite Hparse.
  unfold ret at 1. rewrite Hrss, Hatom.
  reflexivity.
Qed.

Lemma truthy_non_empty (s : string) : PyStr.truthy s = non_empty s.
Proof. destruct s; reflexivity. Qed.

Lemma filter_truthy (l : list string) :
  filter PyStr.truthy l = filter non_empty l.
Proof. apply filter_ext. intro s. apply truthy_non_empty. Qed.

Lemma find_truthy (l : list string) :
  List.find PyStr.truthy l = List.find non_empty l.
Proof.
  induction l as [| s l IH]; simpl.
  - reflexivity.
  - rewrite truthy_non_empty, IH. reflexivity.
Qed.

Lemma keep_or_first_none (dates : list string) :
  keep_or_first None dates = List.find non_empty dates.
Proof.
  unfold keep_or_first. simpl. rewrite find_truthy.
  destruct (List.find non_empty dates); reflexivity.
Qed.

(** An RSS document. *)
Lemma validate_rss u verbose w root w1 :
  yields_document u w root w1 ->
  is_rss root = true ->
  validate_rss_feed u verbose w = (Normal (rss_result u root), w1).
Proof.
  intros (resp & Hget & Hst & Hparse) Hrss.
  unfold is_rss in Hrss.
  unfold validate_rss_feed, try_except, try_body.
  unfold bind at 1. unfold do_requests_get. simpl. rewrite Hget.
  unfold bind at 1. rewrite (raise_for_status_ok _ _ Hst).
  unfold bind at 1. unfold do_fromstring. rewrite Hparse.
  unfold ret at 1. rewrite Hrss.
  unfold bind at 1. unfold rss_branch, rss_result, rss_items, first_five.
  destruct (ET.find root "channel") as [channel |].
  - unfold bind, update, modify. simpl.
    rewrite rss_loop_run. simpl.
    rewrite validation_checks_run. simpl.
    rewrite keep_or_first_none, filter_truthy. reflexivity.
  - unfold ret at 1. rewrite validation_checks_run. reflexivity.
Qed.

(** An Atom document. *)
Lemma validate_atom u verbose w root w1 :
  yields_document u w root w1 ->
  is_rss root = false ->
  is_atom root = true ->
  validate_rss_feed u verbose w = (Normal (atom_result u root), w1).
Proof.
  intros (resp & Hget & Hst & Hparse) Hrss Hatom.
  unfold is_rss in Hrss. unfold is_atom in Hatom.
  unfold validate_rss_feed, try_except, try_body.
  unfold bind at 1. unfold do_requests_get. simpl. rewrite Hget.
  unfold bind at 1. rewrite (raise_for_status_ok _ _ Hst).
  unfold bind at 1. unfold do_fromstring. rewrite Hparse.
  unfold ret at 1. rewrite Hrss, Hatom.
  unfold bind at 1. unfold atom_branch, atom_result, atom_entries, first_five.
  unfold bind, update, modify. simpl.
  rewrite atom_loop_run. simpl.
  rewrite validation_checks_run. simpl.
  rewrite filter_truthy. reflexivity.
Qed.

(** Every call ends in one of the six ways, with a result. *)
Lemma validate_total u verbose w :
  exists r w1,
    validate_rss_feed u verbose w = (Normal r, w1) /\ validation u w r w1.
Proof.
  destruct (requests_get u w) as [[e | resp] w1] eqn:Hget.
  - eexists; eexists; split;
      [ apply (validate_fetch_raises _ _ _ _ _ Hget) | apply (fetch_fails _ _ _ _ Hget) ].
  - destruct (http_error_status resp) eqn:Hst.
    + eexists; eexists; split;
        [ apply (validate_http_error _ _ _ _ _ Hget Hst)
        | apply (status_fails _ _ _ _ Hget Hst) ].
    + destruct (ET_fromstring (content resp)) as [e | root] eqn:Hparse.
      * eexists; eexists; split;
          [ apply (validate_parse_raises _ _ _ _ _ _ Hget Hst Hparse)
          | apply (parse_fails _ _ _ _ _ Hget Hst Hparse) ].
      * assert (Hdoc : yields_document u w root w1)
          by (exists resp; auto).
        destruct (is_rss root) eqn:Hrss.
        -- eexists; eexists; split;
             [ apply (validate_rss _ _ _ _ _ Hdoc Hrss)
             | apply (rss_document _ _ _ _ Hdoc Hrss) ].
        -- destruct (is_atom root) eqn:Hatom.
           ++ eexists; eexists; split;
                [ apply (validate_atom _ _ _ _ _ Hdoc Hrss Hatom)
                | apply (atom_document _ _ _ _ Hdoc Hrss Hatom) ].
           ++ eexists; eexists; split;
                [ apply (validate_unknown_format _ _ _ _ _ Hdoc Hrss Hatom)
                | apply (unknown_format _ _ _ _ Hdoc Hrss Hatom) ].
Qed.

Lemma non_empty_true_iff (s : string) : non_empty s = true <-> s <> "".
Proof. rewrite <- truthy_non_empty. apply truthy_true_iff. Qed.

Lemma non_empty_false_iff (s : string) : non_empty s = false <-> s = "".
Proof. rewrite <- truthy_non_empty. apply truthy_false_iff. Qed.

(** [List.find] returns the publish date of the first item that has a
    non-empty one. *)
Lemma find_first_pub_date (items : list ET.Element) :
  first_pub_date_of items (List.find non_empty (map pub_date items)).
Proof.
  induction items as [| a rest [IHsome IHnone]]; split.
  - intros [| i] item Hnth; discriminate.
  - reflexivity.
  - intros i item Hnth Hne Hearlier. simpl.
    destruct (non_empty (pub_date a)) eqn:Ha.
    + destruct i as [| i].
      * simpl in Hnth. injection Hnth as ->. reflexivity.
      * exfalso. apply non_empty_true_iff in Ha. apply Ha.
        apply (Hearlier 0%nat a); [lia | reflexivity].
    + destruct i as [| i].
      * simpl in Hnth. injection Hnth as ->.
        apply non_empty_false_iff in Ha. contradiction.
      * apply (IHsome i item Hnth Hne).
        intros j earlier Hj Hnthj.
        apply (Hearlier (S j) earlier); [lia | exact Hnthj].
  - intros Hall. simpl.
    assert (Ha : non_empty (pub_date a) = false).
    { apply non_empty_false_iff. apply Hall. left. reflexivity. }
    rewrite Ha. apply IHnone. intros item Hin. apply Hall. right. exact Hin.
Qed.

(** ** The claims *)

(** C1 (as amended): for every RSS document, [latest_date] is the
    [pubDate] text of the first item, in document order, among the first
    five items of the channel that has a non-empty [pubDate], whatever
    the later items carry; it is absent when none of the first five
    items has one (also when there is no channel). *)
Theorem latest_date_first_of_first_five u verbose w root w1 :
  yields_document u w root w1 ->
  is_rss root = true ->
  exists r,
    validate_rss_feed u verbose w = (Normal r, w1)
    /\ first_pub_date_of (first_five (rss_items root)) (latest_date r).
Proof.
  intros Hdoc Hrss.
  exists (rss_result u root). split.
  - apply validate_rss; assumption.
  - simpl. apply find_first_pub_date.
Qed.


(** C3: on every execution path the returned result satisfies
    [valid == (errors is empty)]. *)
Theorem valid_iff_no_errors u verbose w :
  exists r w1,
    validate_rss_feed u verbose w = (Normal r, w1)
    /\ valid r = no_errors r.
Proof.
  destruct (validate_total u verbose w) as (r & w1 & Hrun & Hpath).
  exists r, w1. split; [exact Hrun |].
  destruct Hpath; reflexivity.
Qed.

(** C4: a well-formed document whose root tag is neither [rss] nor the
    Atom [feed] gives [item_count == 0], [valid == false] and exactly
    one error, "Unknown feed format: <tag>"; no check error appears. *)
Theorem unknown_format_only_error u verbose w root w1 :
  yields_document u w root w1 ->
  ET.tag root <> "rss" ->
  ET.tag root <> "{http://www.w3.org/2005/Atom}feed" ->
  exists r,
    validate_rss_feed u verbose w = (Normal r, w1)
    /\ item_count r = 0
    /\ errors r = [("Unknown feed format: " ++ ET.tag root)%string]
    /\ valid r = false
    /\ ~ In "Feed has fewer than 2 items" (errors r)
    /\ ~ In "No headlines found in feed" (errors r).
Proof.
  intros Hdoc Hrss Hatom.
  apply String.eqb_neq in Hrss. apply String.eqb_neq in Hatom.
  eexists. split.
  - apply validate_unknown_format; eassumption.
  - simpl. repeat split; try reflexivity.
    + intros [H | []]. discriminate H.
    + intros [H | []]. discriminate H.
Qed.

Lemma in_firstn {A} (n : nat) (l : list A) (x : A) :
  In x (firstn n l) -> In x l.
Proof.
  revert l. induction n as [| n IH]; intros [| a l] H; simpl in *; try contradiction.
  destruct H as [-> | H]; [left; reflexivity | right; apply IH; exact H].
Qed.

Lemma filter_keeps_all {A} (f : A -> bool) (l : list A) :
  (forall x, In x l -> f x = true) -> filter f l = l.
Proof.
  induction l as [| a l IH]; intro H; simpl.
  - reflexivity.
  - rewrite (H a (or_introl eq_refl)). f_equal.
    apply IH. intros x Hx. apply H. right. exact Hx.
Qed.

Lemma length_filter_le {A} (f : A -> bool) (l : list A) :
  (length (filter f l) <= length l)%nat.
Proof.
  induction l as [| a l IH]; simpl; [lia |].
  destruct (f a); simpl; lia.
Qed.

Lemma atom_is_not_rss (root : ET.Element) :
  is_atom root = true -> is_rss root = false.
Proof.
  unfold is_atom, is_rss. intro H. apply String.eqb_eq in H. rewrite H.
  reflexivity.
Qed.

(** The headlines of a sample are the non-empty titles of the first
    five items, whatever the title accessor. *)
Lemma sample_bounds (titles : ET.Element -> string) (items : list ET.Element) :
  let headlines := filter non_empty (map titles (first_five items)) in
  Z.of_nat (length headlines) <= Z.min 5 (Z.of_nat (length items))
  /\ (length items = 7%nat ->
      (forall item, In item items -> titles item <> "") ->
      headlines = map titles (first_five items) /\ length headlines = 5%nat).
Proof.
  unfold first_five. cbv zeta. split.
  - pose proof (length_filter_le non_empty (map titles (firstn 5 items))) as H.
    rewrite length_map, length_firstn in H. lia.
  - intros Hlen Hall.
    assert (E : filter non_empty (map titles (firstn 5 items))
                = map titles (firstn 5 items)).
    { apply filter_keeps_all. intros t Ht.
      apply in_map_iff in Ht. destruct Ht as (item & <- & Hin).
      apply non_empty_true_iff. apply Hall. apply (in_firstn 5). exact Hin. }
    rewrite E. split; [reflexivity |].
    rewrite length_map, length_firstn, Hlen. reflexivity.
Qed.

(** C5: for every recognized feed, [sample_headlines] is exactly the
    sequence of the non-empty titles among the first five items, in
    document order, so its length is at most [min(5, item_count)]; a
    document with seven items, each with a (non-empty) title, gives
    exactly the first five titles. *)
Theorem sample_headlines_first_five u verbose w root w1 :
  yields_document u w root w1 ->
  is_rss root = true \/ is_atom root = true ->
  exists r,
    validate_rss_feed u verbose w = (Normal r, w1)
    /\ item_count r = Z.of_nat (length (feed_items root))
    /\ sample_headlines r =
       filter non_empty (map (item_title root) (first_five (feed_items root)))
    /\ Z.of_nat (length (sample_headlines r)) <= Z.min 5 (item_count r)
    /\ (length (feed_items root) = 7%nat ->
        (forall item, In item (feed_items root) -> item_title root item <> "") ->
        sample_headlines r = map (item_title root) (first_five (feed_items root))
        /\ length (sample_headlines r) = 5%nat).
Proof.
  intros Hdoc [Hrss | Hatom].
  - exists (rss_result u root).
    split; [apply validate_rss; assumption |].
    unfold feed_items, item_title. rewrite Hrss.
    change (fun item : ET.Element => rss_item_title item) with rss_item_title.
    destruct (sample_bounds rss_item_title (rss_items root)) as [Hle Hseven].
    simpl. repeat split; try reflexivity; try exact Hle; apply Hseven; assumption.
  - pose proof (atom_is_not_rss root Hatom) as Hrss.
    exists (atom_result u root).
    split; [apply validate_atom; assumption |].
    unfold feed_items, item_title. rewrite Hrss.
    change (fun item : ET.Element => atom_entry_title item) with atom_entry_title.
    destruct (sample_bounds atom_entry_title (atom_entries root)) as [Hle Hseven].
    simpl. repeat split; try reflexivity; try exact Hle; apply Hseven; assumption.
Qed.

(** C6: an [rss] root without a [channel] child is not reported as
    such: title and language stay absent, [item_count] is 0, and
    [errors] holds the two check errors and nothing else. *)
Theorem rss_without_channel u verbose w root w1 :
  yields_document u w root w1 ->
  ET.tag root = "rss" ->
  ET.find root "channel" = None ->
  exists r,
    validate_rss_feed u verbose w = (Normal r, w1)
    /\ title r = None
    /\ language r = None
    /\ item_count r = 0
    /\ sample_headlines r = []
    /\ latest_date r = None
    /\ errors r = ["Feed has fewer than 2 items"; "No headlines found in feed"]
    /\ valid r = false.
Proof.
  intros Hdoc Htag Hfind.
  exists (rss_result u root). split.
  - apply validate_rss; [assumption |]. unfold is_rss. rewrite Htag. reflexivity.
  - unfold rss_result, rss_items. rewrite Hfind. simpl.
    repeat split; reflexivity.
Qed.

(** C7: when the request times out, [errors] is ["Request timed out"],
    [valid] is false and every other field keeps its initial value. *)
Theorem timeout_result u verbose w msg w1 :
  requests_get u w = (inl (Timeout msg), w1) ->
  validate_rss_feed u verbose w =
  (Normal {| url := u; valid := false; title := None; item_count := 0;
             latest_date := None; sample_headlines := []; language := None;
             errors := ["Request timed out"] |}, w1).
Proof.
  intro Hget. rewrite (validate_fetch_raises _ verbose _ _ _ Hget). reflexivity.
Qed.

(** A response that [raise_for_status] accepts is handed to the parser,
    and the result is the one the parsed body gives. *)
Lemma validate_accepted u verbose w resp w1 :
  requests_get u w = (inr resp, w1) ->
  http_error_status resp = false ->
  validate_rss_feed u verbose w = (Normal (parsed_result u (content resp)), w1).
Proof.
  intros Hget Hst. unfold parsed_result.
  destruct (ET_fromstring (content resp)) as [e | root] eqn:Hparse.
  - apply (validate_parse_raises _ _ _ _ _ _ Hget Hst Hparse).
  - assert (Hdoc : yields_document u w root w1) by (exists resp; auto).
    destruct (is_rss root) eqn:Hrss.
    + apply validate_rss; assumption.
    + destruct (is_atom root) eqn:Hatom.
      * apply validate_atom; assumption.
      * apply validate_unknown_format; assumption.
Qed.

Lemma http_error_status_false (resp : Response) :
  ~ 400 <= status_code resp < 600 -> http_error_status resp = false.
Proof.
  intro H. unfold http_error_status.
  destruct (400 <=? status_code resp) eqn:Hlo;
    destruct (status_code resp <? 600) eqn:Hhi; try reflexivity.
  exfalso. apply H. apply Z.leb_le in Hlo. apply Z.ltb_lt in Hhi. lia.
Qed.

(** C8 (as amended): when the fetch returns a client or server error
    status (400 to 599), exactly one error, "HTTP error: <status>", is
    recorded, it differs from the timeout entry, and every other field
    keeps its initial value whatever the parser would make of the body:
    nothing is parsed or checked. A response with any other status is
    parsed and validated: the result is the one its body gives, the same
    as for a 2xx response with that body. *)
Theorem http_error_result u verbose w resp w1 :
  requests_get u w = (inr resp, w1) ->
  (400 <= status_code resp < 600 ->
   validate_rss_feed u verbose w =
   (Normal {| url := u; valid := false; title := None; item_count := 0;
              latest_date := None; sample_headlines := []; language := None;
              errors := [("HTTP error: " ++ PyStr.str_int (status_code resp))%string] |},
    w1)
   /\ ("HTTP error: " ++ PyStr.str_int (status_code resp))%string
      <> "Request timed out")
  /\ (~ 400 <= status_code resp < 600 ->
      validate_rss_feed u verbose w =
      (Normal (parsed_result u (content resp)), w1)
      /\ forall w' resp' w1',
           requests_get u w' = (inr resp', w1') ->
           200 <= status_code resp' < 300 ->
           content resp' = content resp ->
           fst (validate_rss_feed u verbose w')
           = fst (validate_rss_feed u verbose w)).
Proof.
  intro Hget. split.
  - intro Hrange. split.
    + rewrite (validate_http_error _ verbose _ _ _ Hget); [reflexivity |].
      unfold http_error_status.
      apply andb_true_iff. split; [apply Z.leb_le | apply Z.ltb_lt]; lia.
    + simpl. discriminate.
  - intro Hother.
    pose proof (validate_accepted _ verbose _ _ _ Hget
                  (http_error_status_false _ Hother)) as Hrun.
    split; [exact Hrun |].
    intros w' resp' w1' Hget' Hok Hbody.
    assert (Hst' : http_error_status resp' = false)
      by (apply http_error_status_false; lia).
    rewrite (validate_accepted _ verbose _ _ _ Hget' Hst'), Hrun, Hbody.
    reflexivity.
Qed.

(** C10: on every execution path, every element of [sample_headlines]
    is a non-empty string. *)
Theorem sample_headlines_non_empty u verbose w :
  exists r w1,
    validate_rss_feed u verbose w = (Normal r, w1)
    /\ Forall (fun headline => headline <> "") (sample_headlines r).
Proof.
  destruct (validate_total u verbose w) as (r & w1 & Hrun & Hpath).
  exists r, w1. split; [exact Hrun |].
  destruct Hpath; simpl; try apply Forall_nil;
    apply Forall_forall; intros h Hin;
    apply filter_In in Hin; destruct Hin as [_ Hne];
    apply non_empty_true_iff; exact Hne.
Qed.

(** ** Runs of the pieces of [main] *)

Lemma validation_url u w r w1 : validation u w r w1 -> url r = u.
Proof. intro H. destruct H; reflexivity. Qed.

Lemma print_accepted (o : output) (out : list output) (w : World) :
  stdout_accepts o = true ->
  print o (out, w) = (Normal tt, (out ++ [o], w)).
Proof. intro H. unfold print. rewrite H. reflexivity. Qed.

Lemma print_rejected (o : output) (out : list output) (w : World) :
  stdout_accepts o = false ->
  print o (out, w) = (Raised (OtherException "UnicodeEncodeError"), (out, w)).
Proof. intro H. unfold print. rewrite H. reflexivity. Qed.

(** Printing a list of lines: all of them when standard output accepts
    each, otherwise [UnicodeEncodeError] at the first line it rejects. *)
Lemma print_lines_accepted (lines : list output) :
  forall (out : list output) (w : World),
    forallb stdout_accepts lines = true ->
    for_each lines print (out, w) = (Normal tt, (out ++ lines, w)).
Proof.
  induction lines as [| o lines IH]; intros out w Hall; simpl.
  - rewrite app_nil_r. reflexivity.
  - simpl in Hall. apply andb_true_iff in Hall. destruct Hall as [Ho Hrest].
    unfold bind. rewrite (print_accepted _ _ _ Ho).
    rewrite (IH _ _ Hrest), <- app_assoc. reflexivity.
Qed.

Lemma print_lines_rejected (lines : list output) :
  forall (out : list output) (w : World),
    forallb stdout_accepts lines = false ->
    exists out',
      for_each lines print (out, w) =
      (Raised (OtherException "UnicodeEncodeError"), (out', w)).
Proof.
  induction lines as [| o lines IH]; intros out w Hall; simpl in *.
  - discriminate.
  - unfold bind. destruct (stdout_accepts o) eqn:Ho.
    + rewrite (print_accepted _ _ _ Ho). simpl in Hall.
      apply (IH _ _ Hall).
    + rewrite (print_rejected _ _ _ Ho). exists out. reflexivity.
Qed.

Lemma bind_cong {S A B} (c c' : M S A) (k k' : A -> M S B) (s : S) :
  c s = c' s ->
  (forall a s', k a s' = k' a s') ->
  bind c k s = bind c' k' s.
Proof.
  intros Hc Hk. unfold bind. rewrite Hc.
  destruct (c' s) as [[a | e | | code] s']; try reflexivity. apply Hk.
Qed.

Lemma for_each_single {S A} (f : A -> M S unit) (x : A) (s : S) :
  for_each [x] f s = f x s.
Proof.
  simpl. unfold bind, ret. destruct (f x s) as [[[] | e | | code] s']; reflexivity.
Qed.

Lemma for_each_app {S A} (f : A -> M S unit) (l1 l2 : list A) :
  forall s, for_each (l1 ++ l2) f s = bind (for_each l1 f) (fun _ => for_each l2 f) s.
Proof.
  induction l1 as [| x l1 IH]; intro s; simpl.
  - reflexivity.
  - unfold bind.
    destruct (f x s) as [[[] | e | | code] s']; try reflexivity.
    rewrite IH. reflexivity.
Qed.

Lemma for_each_map {S A B} (g : A -> B) (f : B -> M S unit) (l : list A) :
  forall s, for_each (map g l) f s = for_each l (fun x => f (g x)) s.
Proof.
  induction l as [| x l IH]; intro s; simpl.
  - reflexivity.
  - apply bind_cong; [reflexivity | intros; apply IH].
Qed.

(** The report prints the lines of [report_of], in order. *)
Lemma report_as_lines (u : string) (r : ValidationResult) (s : MainSt) :
  report u r s = for_each (report_of u r) print s.
Proof.
  unfold report, report_of.
  rewrite for_each_app.
  apply bind_cong; [symmetry; apply for_each_single |].
  intros _ s1. rewrite for_each_app.
  apply bind_cong.
  { unfold when. destruct (PyStr.truthy_opt (title r));
      [symmetry; apply for_each_single | reflexivity]. }
  intros _ s2. rewrite for_each_app.
  apply bind_cong; [symmetry; apply for_each_single |].
  intros _ s3. rewrite for_each_app.
  apply bind_cong.
  { destruct (sample_headlines r) as [| h hs];
      [reflexivity | symmetry; apply for_each_single]. }
  intros _ s4. rewrite for_each_map.
  destruct (errors r); reflexivity.
Qed.

Lemma when_print_as_lines (b : bool) (o : output) (s : MainSt) :
  when b (print o) s = for_each (if b then [o] else []) print s.
Proof.
  unfold when. destruct b; [symmetry; apply for_each_single | reflexivity].
Qed.

(** The loop validates the URLs in order and appends each result to the
    list. With [--json] nothing is printed; otherwise each report is
    printed, and the loop ends with [UnicodeEncodeError] at the first
    line standard output rejects. *)
Lemma validate_all_run (args : Args) (urls : list string) :
  forall (acc : list ValidationResult) (out : list output) (w : World),
  exists rs w1,
    processes (args_verbose args) urls w rs w1
    /\ Forall2 (fun u r => url r = u) urls rs
    /\ (args_json args = true
        \/ forallb stdout_accepts (reports_of args urls rs) = true ->
        validate_all args urls acc (out, w) =
        (Normal (acc ++ rs),
         (out ++ (if args_json args then [] else reports_of args urls rs), w1)))
    /\ (args_json args = false ->
        forallb stdout_accepts (reports_of args urls rs) = false ->
        exists s',
          validate_all args urls acc (out, w) =
          (Raised (OtherException "UnicodeEncodeError"), s')).
Proof.
  induction urls as [| u urls IH]; intros acc out w.
  - exists [], w. repeat split.
    + constructor.
    + constructor.
    + intros _. simpl. unfold ret. rewrite !app_nil_r.
      destruct (args_json args); rewrite ?app_nil_r; reflexivity.
    + intros _ H. simpl in H. discriminate.
  - destruct (validate_total u (args_verbose args) w) as (r & w1 & Hrun & Hpath).
    pose (pre := if args_verbose args && negb (args_json args)
                 then [OutValidating u] else []).
    pose (rep := if args_json args then [] else report_of u r).
    destruct (IH (acc ++ [r]) ((out ++ pre) ++ rep) w1)
      as (rs & w2 & Hproc & Hurls & Hok & Hfail).
    exists (r :: rs), w2.
    split; [econstructor; eassumption |].
    split; [constructor; [apply (validation_url _ _ _ _ Hpath) | exact Hurls] |].
    assert (Hstep : forall s0,
               validate_all args (u :: urls) acc s0 =
               bind (for_each pre print)
                    (fun _ s1 =>
                       match validate_rss_feed u (args_verbose args) (snd s1) with
                       | (Normal r', w') =>
                           bind (for_each (if args_json args then []
                                           else report_of u r') print)
                                (fun _ => validate_all args urls (acc ++ [r']))
                                (fst s1, w')
                       | (Raised e, w') => (Raised e, (fst s1, w'))
                       | (Returned, w') => (Returned, (fst s1, w'))
                       | (Exited code, w') => (Exited code, (fst s1, w'))
                       end) s0).
    { intro s0. cbn [validate_all].
      apply bind_cong; [apply when_print_as_lines |].
      intros _ s1. unfold bind at 1. unfold call.
      destruct (validate_rss_feed u (args_verbose args) (snd s1))
        as [[r' | e | | code] w']; try reflexivity.
      apply bind_cong; [| reflexivity].
      destruct (args_json args); [reflexivity | apply report_as_lines]. }
    assert (Hsplit : args_json args = false ->
                     forallb stdout_accepts (reports_of args (u :: urls) (r :: rs))
                     = forallb stdout_accepts pre && forallb stdout_accepts rep
                       && forallb stdout_accepts (reports_of args urls rs)).
    { intro Hj. cbn [reports_of]. unfold pre, rep. rewrite Hj.
      rewrite !forallb_app, andb_true_r, andb_assoc. reflexivity. }
    split.
    + intro Hcond. rewrite Hstep.
      assert (Hpre : forallb stdout_accepts pre = true
                     /\ forallb stdout_accepts rep = true
                     /\ (args_json args = true
                         \/ forallb stdout_accepts (reports_of args urls rs) = true)).
      { destruct (args_json args) eqn:Hj.
        - unfold pre, rep. rewrite andb_false_r. auto.
        - destruct Hcond as [Hc | Hc]; [discriminate |].
          rewrite (Hsplit eq_refl) in Hc.
          apply andb_true_iff in Hc. destruct Hc as [Hc H3].
          apply andb_true_iff in Hc. destruct Hc as [H1 H2]. auto. }
      destruct Hpre as (H1 & H2 & H3).
      unfold bind at 1. rewrite (print_lines_accepted _ _ _ H1).
      cbn [fst snd]. rewrite Hrun.
      unfold bind at 1. fold rep. rewrite (print_lines_accepted _ _ _ H2).
      rewrite (Hok H3). unfold pre, rep. cbn [reports_of].
      generalize (report_of u r) (reports_of args urls rs). intros R RS.
      destruct (args_json args); destruct (args_verbose args); simpl;
        repeat rewrite <- app_assoc; simpl; rewrite ?app_nil_r; reflexivity.
    + intros Hj Hrej. rewrite Hstep. rewrite (Hsplit Hj) in Hrej.
      unfold bind at 1.
      destruct (forallb stdout_accepts pre) eqn:H1.
      * rewrite (print_lines_accepted _ _ _ H1). cbn [fst snd]. rewrite Hrun.
        unfold bind at 1. fold rep.
        destruct (forallb stdout_accepts rep) eqn:H2.
        -- rewrite (print_lines_accepted _ _ _ H2).
           simpl in Hrej. apply (Hfail Hj Hrej).
        -- destruct (print_lines_rejected rep (out ++ pre) w1 H2) as [out' Hp].
           rewrite Hp. eexists. reflexivity.
      * destruct (print_lines_rejected pre out w H1) as [out' Hp].
        rewrite Hp. eexists. reflexivity.
Qed.

Lemma read_urls_prints_nothing (args : Args) (w : World) urls s0 :
  read_urls args ([], w) = (Normal urls, s0) -> fst s0 = [].
Proof.
  unfold read_urls.
  destruct (PyStr.truthy_opt (args_batch args)).
  - unfold bind, do_open_lines. cbn [fst snd].
    destruct (open_lines (value (args_batch args)) w) as [[e | lines] w0];
      [discriminate |].
    unfold ret. intro H. injection H as _ <-. reflexivity.
  - destruct (PyStr.truthy_opt (args_url args)).
    + unfold ret. intro H. injection H as _ <-. reflexivity.
    + discriminate.
Qed.

Lemma forallb_valid_false (rs : list ValidationResult) (r : ValidationResult) :
  In r rs -> valid r = false -> forallb valid rs = false.
Proof.
  intros Hin Hr.
  destruct (forallb valid rs) eqn:Hall; [| reflexivity].
  rewrite forallb_forall in Hall. rewrite (Hall r Hin) in Hr. discriminate.
Qed.

(** What [main] does once the URLs are read. *)
Lemma run_main_after_read (args : Args) (w : World) urls w0 :
  read_urls args ([], w) = (Normal urls, ([], w0)) ->
  exists rs w1,
    processes (args_verbose args) urls w0 rs w1
    /\ Forall2 (fun u r => url r = u) urls rs
    /\ (args_json args = true
        \/ forallb stdout_accepts (reports_of args urls rs) = true ->
        run_main args w =
        (if forallb valid rs then 0 else 1,
         if args_json args then [OutJson rs] else reports_of args urls rs,
         w1))
    /\ (args_json args = false ->
        forallb stdout_accepts (reports_of args urls rs) = false ->
        fst (fst (run_main args w)) = 1).
Proof.
  intro Hread.
  destruct (validate_all_run args urls [] [] w0)
    as (rs & w1 & Hproc & Hurls & Hok & Hfail).
  exists rs, w1. split; [exact Hproc |]. split; [exact Hurls |]. split.
  - intro Hcond. specialize (Hok Hcond). simpl in Hok.
    unfold run_main, main. unfold bind at 1. rewrite Hread.
    unfold bind at 1. rewrite Hok.
    unfold bind, when, print, stdout_accepts, sys_exit, ret.
    destruct (args_json args); destruct (forallb valid rs); reflexivity.
  - intros Hj Hrej. destruct (Hfail Hj Hrej) as [s' Hloop].
    unfold run_main, main. unfold bind at 1. rewrite Hread.
    unfold bind at 1. rewrite Hloop. reflexivity.
Qed.

(** C9 (as amended): with neither a URL nor a batch file the usage text
    is printed and the exit code is 1. Once the URLs are read, and
    provided standard output can encode every line of the reports (with
    [--json] it always can), every URL is validated in input order, every
    result is reported in input order (in the JSON array, or as one
    report per URL), and the exit code is 0 if all results are valid and
    1 otherwise, so one invalid feed suffices for 1. When standard output
    cannot encode a line of the reports, or the batch file cannot be
    read, the uncaught exception ends the process with exit code 1
    whatever the results. *)
Theorem exit_code_reflects_validity (args : Args) (w : World) :
  (PyStr.truthy_opt (args_batch args) = false ->
   PyStr.truthy_opt (args_url args) = false ->
   run_main args w = (1, [OutHelp], w))
  /\ (forall urls s0,
         read_urls args ([], w) = (Normal urls, s0) ->
         exists rs w1,
           processes (args_verbose args) urls (snd s0) rs w1
           /\ Forall2 (fun u r => url r = u) urls rs
           /\ (args_json args = true
               \/ forallb stdout_accepts (reports_of args urls rs) = true ->
               run_main args w =
               (if forallb valid rs then 0 else 1,
                if args_json args then [OutJson rs] else reports_of args urls rs,
                w1)
               /\ (forall r, In r rs -> valid r = false ->
                             fst (fst (run_main args w)) = 1))
           /\ (args_json args = false ->
               forallb stdout_accepts (reports_of args urls rs) = false ->
               fst (fst (run_main args w)) = 1))
  /\ (forall e s0,
         read_urls args ([], w) = (Raised e, s0) ->
         run_main args w = (1, fst s0, snd s0)).
Proof.
  split; [| split].
  - intros Hbatch Hurl.
    unfold run_main, main, bind at 1, read_urls. rewrite Hbatch, Hurl.
    reflexivity.
  - intros urls s0 Hread.
    pose proof (read_urls_prints_nothing _ _ _ _ Hread) as Hout.
    destruct s0 as [out0 w0]. simpl in Hout. subst out0.
    destruct (run_main_after_read args w urls w0 Hread)
      as (rs & w1 & Hproc & Hurls & Hok & Hfail).
    exists rs, w1. split; [exact Hproc |]. split; [exact Hurls |].
    split; [| exact Hfail].
    intro Hcond. pose proof (Hok Hcond) as Hmain.
    split; [exact Hmain |].
    intros r Hin Hr. rewrite Hmain.
    rewrite (forallb_valid_false rs r Hin Hr). reflexivity.
  - intros e s0 Hread.
    unfold run_main, main. unfold bind at 1. rewrite Hread. reflexivity.
Qed.

(** ** Further properties of [validate_rss_feed] *)

(** X1: the result echoes the URL it was called with, on every path. *)
Theorem result_echoes_url u verbose w :
  exists r w1,
    validate_rss_feed u verbose w = (Normal r, w1) /\ url r = u.
Proof.
  destruct (validate_total u verbose w) as (r & w1 & Hrun & Hpath).
  exists r, w1. split; [exact Hrun | apply (validation_url _ _ _ _ Hpath)].
Qed.

Lemma validation_world u w r w1 :
  validation u w r w1 -> w1 = snd (requests_get u w).
Proof.
  intro H.
  destruct H as [e w1 Hget | resp w1 Hget _ | resp w1 e Hget _ _
                 | root w1 (resp & Hget & _) _ _
                 | root w1 (resp & Hget & _) _
                 | root w1 (resp & Hget & _) _ _];
    rewrite Hget; reflexivity.
Qed.

(** X2: a call touches the world through its single [requests.get] only:
    the world it leaves is the one that request left, whatever the
    response, the parser and the document. *)
Theorem single_request_per_call u verbose w :
  snd (validate_rss_feed u verbose w) = snd (requests_get u w).
Proof.
  destruct (validate_total u verbose w) as (r & w1 & Hrun & Hpath).
  rewrite Hrun. simpl. apply (validation_world _ _ _ _ Hpath).
Qed.

Lemma check_errors_nil (count : Z) (headlines : list string) :
  check_errors count headlines = [] <-> 2 <= count /\ headlines <> [].
Proof.
  unfold check_errors.
  destruct (count <? 2) eqn:Hc; destruct headlines as [| h hs]; simpl;
    (split; [intro H | intros [H1 H2]]);
    try discriminate; try congruence; try reflexivity;
    try (apply Z.ltb_lt in Hc; lia).
  apply Z.ltb_ge in Hc. split; [lia | discriminate].
Qed.

Lemma filter_non_empty_not_nil (titles : list string) :
  filter non_empty titles <> [] <-> exists t, In t titles /\ t <> "".
Proof.
  split.
  - intro H. destruct (filter non_empty titles) as [| t ts] eqn:E;
      [contradiction |].
    assert (Hin : In t (filter non_empty titles)) by (rewrite E; left; reflexivity).
    apply filter_In in Hin. destruct Hin as [Hin Hne].
    exists t. split; [exact Hin | apply non_empty_true_iff; exact Hne].
  - intros (t & Hin & Hne) E.
    assert (Hf : In t (filter non_empty titles)).
    { apply filter_In. split; [exact Hin | apply non_empty_true_iff; exact Hne]. }
    rewrite E in Hf. contradiction.
Qed.

Lemma valid_recognized (count : Z) (headlines : list string) :
  match check_errors count headlines with [] => true | _ :: _ => false end = true
  <-> check_errors count headlines = [].
Proof.
  destruct (check_errors count headlines); split; intro H;
    try reflexivity; discriminate.
Qed.

(** X3: a recognized feed is reported valid exactly when it has at least
    two items and at least one of its first five items has a non-empty
    title. *)
Theorem valid_iff_two_items_and_headline u verbose w root w1 :
  yields_document u w root w1 ->
  is_rss root = true \/ is_atom root = true ->
  exists r,
    validate_rss_feed u verbose w = (Normal r, w1)
    /\ (valid r = true <->
        (2 <= length (feed_items root))%nat
        /\ exists item, In item (first_five (feed_items root))
                        /\ item_title root item <> "").
Proof.
  intros Hdoc [Hrss | Hatom].
  - exists (rss_result u root).
    split; [apply validate_rss; assumption |].
    unfold feed_items, item_title. rewrite Hrss. simpl.
    rewrite valid_recognized, check_errors_nil, filter_non_empty_not_nil.
    split.
    + intros [Hcount (t & Hin & Hne)].
      apply in_map_iff in Hin. destruct Hin as (item & <- & Hin).
      split; [lia | exists item; split; assumption].
    + intros [Hcount (item & Hin & Hne)].
      split; [lia |]. exists (rss_item_title item).
      split; [apply in_map; exact Hin | exact Hne].
  - pose proof (atom_is_not_rss root Hatom) as Hrss.
    exists (atom_result u root).
    split; [apply validate_atom; assumption |].
    unfold feed_items, item_title. rewrite Hrss. simpl.
    rewrite valid_recognized, check_errors_nil, filter_non_empty_not_nil.
    split.
    + intros [Hcount (t & Hin & Hne)].
      apply in_map_iff in Hin. destruct Hin as (item & <- & Hin).
      split; [lia | exists item; split; assumption].
    + intros [Hcount (item & Hin & Hne)].
      split; [lia |]. exists (atom_entry_title item).
      split; [apply in_map; exact Hin | exact Hne].
Qed.

(** X4: whatever the URL and the world, a result reported valid has no
    errors, at least two items, at least one headline and a title that is
    not [None]. *)
Theorem valid_result_is_sound u verbose w :
  exists r w1,
    validate_rss_feed u verbose w = (Normal r, w1)
    /\ (valid r = true ->
        errors r = [] /\ 2 <= item_count r /\ sample_headlines r <> []
        /\ title r <> None).
Proof.
  destruct (validate_total u verbose w) as (r & w1 & Hrun & Hpath).
  exists r, w1. split; [exact Hrun |].
  destruct Hpath as [e w1 Hget | resp w1 Hget Hst | resp w1 e Hget Hst Hparse
                     | root w1 Hdoc Hrss Hatom
                     | root w1 Hdoc Hrss
                     | root w1 Hdoc Hrss Hatom];
    try (simpl; discriminate).
  - simpl. intro Hvalid.
    apply valid_recognized in Hvalid.
    split; [exact Hvalid |].
    apply check_errors_nil in Hvalid. destruct Hvalid as [Hcount Hhead].
    split; [exact Hcount |]. split; [exact Hhead |].
    unfold rss_items in Hcount.
    destruct (ET.find root "channel"); simpl in *; [discriminate | lia].
  - simpl. intro Hvalid.
    apply valid_recognized in Hvalid.
    split; [exact Hvalid |].
    apply check_errors_nil in Hvalid. destruct Hvalid as [Hcount Hhead].
    split; [exact Hcount |]. split; [exact Hhead | discriminate].
Qed.

(** X5: [errors] never holds more than two entries; two entries are
    always the two check errors, in the order of the checks. *)
Theorem at_most_two_errors u verbose w :
  exists r w1,
    validate_rss_feed u verbose w = (Normal r, w1)
    /\ (length (errors r) <= 2)%nat
    /\ (length (errors r) = 2%nat ->
        errors r = ["Feed has fewer than 2 items"; "No headlines found in feed"]).
Proof.
  destruct (validate_total u verbose w) as (r & w1 & Hrun & Hpath).
  exists r, w1. split; [exact Hrun |].
  destruct Hpath as [e w1 Hget | resp w1 Hget Hst | resp w1 e Hget Hst Hparse
                     | root w1 Hdoc Hrss Hatom
                     | root w1 Hdoc Hrss
                     | root w1 Hdoc Hrss Hatom];
    try (simpl; split; [lia | discriminate]).
  - simpl. unfold check_errors.
    destruct (Z.of_nat (length (rss_items root)) <? 2);
      destruct (filter non_empty (map rss_item_title (first_five (rss_items root))));
      simpl; split; try lia; try discriminate; reflexivity.
  - simpl. unfold check_errors.
    destruct (Z.of_nat (length (atom_entries root)) <? 2);
      destruct (filter non_empty (map atom_entry_title (first_five (atom_entries root))));
      simpl; split; try lia; try discriminate; reflexivity.
Qed.

(** X6: when the parser raises [ParseError] on the body of an accepted
    response, the only entry is "XML parse error: <details>" and every
    other field keeps its initial value. *)
Theorem parse_error_result u verbose w resp w1 msg :
  requests_get u w = (inr resp, w1) ->
  http_error_status resp = false ->
  ET_fromstring (content resp) = inl (ParseError msg) ->
  validate_rss_feed u verbose w =
  (Normal {| url := u; valid := false; title := None; item_count := 0;
             latest_date := None; sample_headlines := []; language := None;
             errors := [("XML parse error: " ++ msg)%string] |}, w1).
Proof.
  intros Hget Hst Hparse.
  rewrite (validate_parse_raises _ verbose _ _ _ _ Hget Hst Hparse). reflexivity.
Qed.

(** X7: an exception that is neither a timeout, an HTTP error nor a parse
    error, raised by the fetch or by the parser, is recorded as
    "Error: <message>" on the initial dictionary. *)
Theorem uncategorized_error_result u verbose w w1 msg :
  requests_get u w = (inl (OtherException msg), w1)
  \/ (exists resp,
         requests_get u w = (inr resp, w1)
         /\ http_error_status resp = false
         /\ ET_fromstring (content resp) = inl (OtherException msg)) ->
  validate_rss_feed u verbose w =
  (Normal {| url := u; valid := false; title := None; item_count := 0;
             latest_date := None; sample_headlines := []; language := None;
             errors := [("Error: " ++ msg)%string] |}, w1).
Proof.
  intros [Hget | (resp & Hget & Hst & Hparse)].
  - rewrite (validate_fetch_raises _ verbose _ _ _ Hget). reflexivity.
  - rewrite (validate_parse_raises _ verbose _ _ _ _ Hget Hst Hparse). reflexivity.
Qed.

(** X8: for an Atom document the title is always set (to the empty string
    when the feed has no title element), while [language] and
    [latest_date] are never populated. *)
Theorem atom_sets_title_only u verbose w root w1 :
  yields_document u w root w1 ->
  is_atom root = true ->
  exists r,
    validate_rss_feed u verbose w = (Normal r, w1)
    /\ title r = Some (ET.findtext root "{http://www.w3.org/2005/Atom}title" "")
    /\ (ET.find root "{http://www.w3.org/2005/Atom}title" = None -> title r = Some "")
    /\ language r = None
    /\ latest_date r = None.
Proof.
  intros Hdoc Hatom.
  pose proof (atom_is_not_rss root Hatom) as Hrss.
  exists (atom_result u root).
  split; [apply validate_atom; assumption |].
  simpl. repeat split; try reflexivity.
  intro Hnone. unfold ET.findtext. rewrite Hnone. reflexivity.
Qed.

(** X9: for an RSS document with a channel, [title] and [language] are
    always set: to the text of the channel's first [title] and [language]
    child, and to the empty string (not [None]) when that child is
    missing or has no text. *)
Theorem rss_channel_title_and_language u verbose w root w1 channel :
  yields_document u w root w1 ->
  is_rss root = true ->
  ET.find root "channel" = Some channel ->
  exists r,
    validate_rss_feed u verbose w = (Normal r, w1)
    /\ title r = Some (ET.findtext channel "title" "")
    /\ language r = Some (ET.findtext channel "language" "")
    /\ (ET.find channel "title" = None -> title r = Some "")
    /\ (ET.find channel "language" = None -> language r = Some "")
    /\ (forall c, ET.find channel "title" = Some c -> ET.text c = None ->
                  title r = Some "").
Proof.
  intros Hdoc Hrss Hchannel.
  exists (rss_result u root).
  split; [apply validate_rss; assumption |].
  unfold rss_result. rewrite Hchannel. simpl.
  repeat split; try reflexivity.
  - intro Hnone. unfold ET.findtext. rewrite Hnone. reflexivity.
  - intro Hnone. unfold ET.findtext. rewrite Hnone. reflexivity.
  - intros c Hc Htext. unfold ET.findtext. rewrite Hc, Htext. reflexivity.
Qed.

(** X10: the items after the fifth never influence [sample_headlines] or
    [latest_date]: two RSS documents whose first five items agree give
    the same headlines and the same date. *)
Theorem only_first_five_items_matter u verbose w root w1 u' w' root' w1' :
  yields_document u w root w1 ->
  yields_document u' w' root' w1' ->
  is_rss root = true ->
  is_rss root' = true ->
  first_five (rss_items root) = first_five (rss_items root') ->
  exists r r',
    validate_rss_feed u verbose w = (Normal r, w1)
    /\ validate_rss_feed u' verbose w' = (Normal r', w1')
    /\ sample_headlines r = sample_headlines r'
    /\ latest_date r = latest_date r'.
Proof.
  intros Hdoc Hdoc' Hrss Hrss' Hsame.
  exists (rss_result u root), (rss_result u' root').
  split; [apply validate_rss; assumption |].
  split; [apply validate_rss; assumption |].
  simpl. rewrite Hsame. split; reflexivity.
Qed.

(** X11: [latest_date] is either absent or a non-empty string, on every
    path. *)
Theorem latest_date_never_empty u verbose w :
  exists r w1,
    validate_rss_feed u verbose w = (Normal r, w1)
    /\ latest_date r <> Some "".
Proof.
  destruct (validate_total u verbose w) as (r & w1 & Hrun & Hpath).
  exists r, w1. split; [exact Hrun |].
  destruct Hpath; simpl; try discriminate.
  intro Hdate. apply find_some in Hdate. destruct Hdate as [_ Hne]. discriminate Hne.
Qed.

(** ** Further properties of [main] *)

Lemma read_urls_exit_code (args : Args) (s : MainSt) code s0 :
  read_urls args s = (Exited code, s0) -> code = 1.
Proof.
  unfold read_urls.
  destruct (PyStr.truthy_opt (args_batch args)).
  - unfold bind, do_open_lines.
    destruct (open_lines (value (args_batch args)) (snd s)) as [[e | lines] w0];
      discriminate.
  - destruct (PyStr.truthy_opt (args_url args)).
    + discriminate.
    + unfold bind, print, modify, sys_exit. intro H. injection H as <- _.
      reflexivity.
Qed.

Lemma read_urls_never_returns (args : Args) (s : MainSt) s0 :
  read_urls args s <> (Returned, s0).
Proof.
  unfold read_urls.
  destruct (PyStr.truthy_opt (args_batch args)).
  - unfold bind, do_open_lines.
    destruct (open_lines (value (args_batch args)) (snd s)) as [[e | lines] w0];
      discriminate.
  - destruct (PyStr.truthy_opt (args_url args)); discriminate.
Qed.

Lemma run_main_read_raises (args : Args) (w : World) e s0 :
  read_urls args ([], w) = (Raised e, s0) ->
  run_main args w = (1, fst s0, snd s0).
Proof.
  intro Hread. unfold run_main, main. unfold bind at 1. rewrite Hread.
  reflexivity.
Qed.

Lemma run_main_read_exits (args : Args) (w : World) code s0 :
  read_urls args ([], w) = (Exited code, s0) ->
  run_main args w = (code, fst s0, snd s0).
Proof.
  intro Hread. unfold run_main, main. unfold bind at 1. rewrite Hread.
  reflexivity.
Qed.

(** X13: a batch file in which every line is blank or starts with [#]
    (an empty file included) yields no URL: nothing is validated, the
    world is the one the reading of the file left, the output is empty
    (or the empty JSON array) and the exit status is 0. *)
Theorem empty_batch_exits_zero (args : Args) (w : World) lines w0 :
  PyStr.truthy_opt (args_batch args) = true ->
  open_lines (value (args_batch args)) w = (inr lines, w0) ->
  (forall line, In line lines ->
                PyStr.strip line = "" \/ PyStr.startswith "#" line = true) ->
  run_main args w = (0, if args_json args then [OutJson []] else [], w0).
Proof.
  intros Hbatch Hopen Hskip.
  assert (Hnone : filter (fun line => PyStr.truthy (PyStr.strip line)
                                      && negb (PyStr.startswith "#" line)) lines = []).
  { clear Hopen. induction lines as [| l ls IH]; simpl; [reflexivity |].
    destruct (Hskip l (or_introl eq_refl)) as [Hblank | Hcomment].
    - rewrite Hblank. simpl. apply IH. intros x Hx. apply Hskip. right. exact Hx.
    - rewrite Hcomment, andb_false_r. apply IH.
      intros x Hx. apply Hskip. right. exact Hx. }
  unfold run_main, main. unfold bind at 1. unfold read_urls. rewrite Hbatch.
  unfold bind at 1. unfold do_open_lines. cbn [fst snd]. rewrite Hopen.
  unfold ret at 1. rewrite Hnone. simpl.
  unfold bind, when, print, stdout_accepts, ret. simpl.
  destruct (args_json args); reflexivity.
Qed.

Lemma lstrip_head (s : string) :
  match PyStr.lstrip s with
  | EmptyString => True
  | String c _ => PyStr.isspace c = false
  end.
Proof.
  induction s as [| c s IH]; simpl; [exact I |].
  destruct (PyStr.isspace c) eqn:Hc; [exact IH | exact Hc].
Qed.

Lemma rstrip_idempotent (s : string) :
  PyStr.rstrip (PyStr.rstrip s) = PyStr.rstrip s.
Proof.
  induction s as [| c s IH]; simpl; [reflexivity |].
  destruct (PyStr.rstrip s) as [| d r] eqn:E.
  - destruct (PyStr.isspace c) eqn:Hc; simpl; [reflexivity |].
    rewrite Hc. reflexivity.
  - simpl in IH. simpl.
    destruct (PyStr.rstrip r) as [| d' r'] eqn:E'.
    + destruct (PyStr.isspace d) eqn:Hd; [discriminate IH |].
      injection IH as <-. reflexivity.
    + rewrite IH. reflexivity.
Qed.

Lemma rstrip_keeps_head (c : ascii) (s : string) :
  PyStr.isspace c = false ->
  exists r, PyStr.rstrip (String c s) = String c r.
Proof.
  intro Hc. simpl.
  destruct (PyStr.rstrip s) as [| d r].
  - rewrite Hc. exists EmptyString. reflexivity.
  - exists (String d r). reflexivity.
Qed.

Lemma strip_idempotent (s : string) :
  PyStr.strip (PyStr.strip s) = PyStr.strip s.
Proof.
  unfold PyStr.strip.
  pose proof (lstrip_head s) as Hhead.
  destruct (PyStr.lstrip s) as [| c t] eqn:E.
  - reflexivity.
  - destruct (rstrip_keeps_head c t Hhead) as [r Hr].
    assert (Hl : PyStr.lstrip (PyStr.rstrip (String c t)) = PyStr.rstrip (String c t)).
    { rewrite Hr. simpl. rewrite Hhead. reflexivity. }
    rewrite Hl. apply rstrip_idempotent.
Qed.

(** X14: no empty URL is ever validated, and the URLs taken from a batch
    file carry no leading or trailing white space. *)
Theorem urls_are_non_empty_and_stripped (args : Args) (w : World) urls s0 :
  read_urls args ([], w) = (Normal urls, s0) ->
  Forall (fun u => u <> "") urls
  /\ (PyStr.truthy_opt (args_batch args) = true ->
      Forall (fun u => PyStr.strip u = u) urls).
Proof.
  unfold read_urls.
  destruct (PyStr.truthy_opt (args_batch args)) eqn:Hbatch.
  - unfold bind, do_open_lines. cbn [fst snd].
    destruct (open_lines (value (args_batch args)) w) as [[e | lines] w0];
      [discriminate |].
    unfold ret. intro H. injection H as <- _.
    split; [| intros _]; apply Forall_forall; intros u Hin;
      apply in_map_iff in Hin; destruct Hin as (line & <- & Hin);
      apply filter_In in Hin; destruct Hin as [_ Hkeep];
      apply andb_true_iff in Hkeep; destruct Hkeep as [Hne _].
    + apply truthy_true_iff. exact Hne.
    + apply strip_idempotent.
  - destruct (PyStr.truthy_opt (args_url args)) eqn:Hurl; [| discriminate].
    unfold ret. intro H. injection H as <- _.
    split; [| discriminate].
    constructor; [| constructor].
    destruct (args_url args) as [u |]; simpl in *; [| discriminate].
    apply truthy_true_iff. exact Hurl.
Qed.

Lemma processes_functional v v' (urls : list string) :
  forall w rs w1 rs' w1',
    processes v urls w rs w1 ->
    processes v' urls w rs' w1' ->
    rs = rs' /\ w1 = w1'.
Proof.
  induction urls as [| u urls IH]; intros w rs w1 rs' w1' H H'.
  - inversion H; subst. inversion H'; subst. split; reflexivity.
  - inversion H as [| ? ? ? r wa rsa wb Hrun Hrest]; subst.
    inversion H' as [| ? ? ? r' wa' rsa' wb' Hrun' Hrest']; subst.
    change (validate_rss_feed u v' w) with (validate_rss_feed u v w) in Hrun'.
    rewrite Hrun in Hrun'. injection Hrun' as <- <-.
    destruct (IH _ _ _ _ _ Hrest Hrest') as [<- <-].
    split; reflexivity.
Qed.

Lemma forallb_all {A} (f : A -> bool) (l : list A) :
  (forall x, f x = true) -> forallb f l = true.
Proof.
  intro H. induction l as [| x l IH]; simpl; [reflexivity |].
  rewrite H, IH. reflexivity.
Qed.

(** X15: on a standard output that can encode every line, [--verbose]
    and [--json] only change what is printed: two invocations with the
    same [url] and [--batch] arguments end with the same exit status and
    leave the same world. *)
Theorem flags_do_not_change_exit_status (args args' : Args) (w : World) :
  (forall o, stdout_accepts o = true) ->
  args_url args = args_url args' ->
  args_batch args = args_batch args' ->
  fst (fst (run_main args w)) = fst (fst (run_main args' w))
  /\ snd (run_main args w) = snd (run_main args' w).
Proof.
  intros Hstdout Hurl Hbatch.
  assert (Hsame : read_urls args' ([], w) = read_urls args ([], w)).
  { unfold read_urls. rewrite Hurl, Hbatch. reflexivity. }
  destruct (read_urls args ([], w)) as [[urls | e | | code] s0] eqn:Hread.
  - pose proof (read_urls_prints_nothing _ _ _ _ Hread) as Hout.
    destruct s0 as [out0 w0]. simpl in Hout. subst out0.
    destruct (run_main_after_read args w urls w0 Hread)
      as (rs & w1 & Hp & _ & Hmain & _).
    destruct (run_main_after_read args' w urls w0 Hsame)
      as (rs' & w1' & Hp' & _ & Hmain' & _).
    destruct (processes_functional _ _ _ _ _ _ _ _ Hp Hp') as [<- <-].
    rewrite Hmain, Hmain';
      try (right; apply forallb_all; exact Hstdout).
    split; reflexivity.
  - rewrite (run_main_read_raises _ _ _ _ Hread).
    rewrite (run_main_read_raises _ _ _ _ Hsame). split; reflexivity.
  - exfalso. apply (read_urls_never_returns _ _ _ Hread).
  - rewrite (run_main_read_exits _ _ _ _ Hread).
    rewrite (run_main_read_exits _ _ _ _ Hsame). split; reflexivity.
Qed.




Lemma validate_all_flags (a a' : Args) (urls : list string) :
  args_verbose a = args_verbose a' ->
  args_json a = args_json a' ->
  forall acc s, validate_all a urls acc s = validate_all a' urls acc s.
Proof.
  intros Hv Hj.
  induction urls as [| u urls IH]; intros acc s; simpl; [reflexivity |].
  rewrite Hv, Hj. unfold bind.
  destruct (when (args_verbose a' && negb (args_json a')) (print (OutValidating u)) s)
    as [[[] | e | | code] s1]; try reflexivity.
  destruct (call (validate_rss_feed u (args_verbose a')) s1)
    as [[r | e | | code] s2]; try reflexivity.
  destruct (when (negb (args_json a')) (report u r) s2)
    as [[[] | e | | code] s3]; try reflexivity.
  apply IH.
Qed.

(** X17: [--batch] takes precedence: when a batch file is named, the
    positional [url] plays no part in the run. *)
Theorem batch_overrides_url (url1 url2 batch : option string)
        (verbose json : bool) (w : World) :
  PyStr.truthy_opt batch = true ->
  run_main (mkArgs url1 batch verbose json) w
  = run_main (mkArgs url2 batch verbose json) w.
Proof.
  intro Hbatch.
  assert (Hmain : main (mkArgs url1 batch verbose json) ([], w)
                  = main (mkArgs url2 batch verbose json) ([], w)).
  { unfold main, read_urls. cbn [args_batch args_url args_json].
    rewrite Hbatch. unfold bind.
    destruct (do_open_lines (value batch) ([], w)) as [[lines | e | | code] s0];
      try reflexivity.
    cbn beta iota delta [ret].
    rewrite (validate_all_flags (mkArgs url1 batch verbose json)
                                (mkArgs url2 batch verbose json));
      reflexivity. }
  unfold run_main. rewrite Hmain. reflexivity.
Qed.

(** X19: a comment is recognized on the raw line only: a line of the
    batch file that does not begin with [#] and is not blank is validated
    under its stripped text, also when that text begins with [#] (an
    indented comment). *)
Theorem only_unindented_comments_are_skipped (args : Args) (w : World)
        lines w0 line :
  PyStr.truthy_opt (args_batch args) = true ->
  open_lines (value (args_batch args)) w = (inr lines, w0) ->
  In line lines ->
  PyStr.startswith "#" line = false ->
  PyStr.strip line <> "" ->
  exists urls,
    read_urls args ([], w) = (Normal urls, ([], w0))
    /\ In (PyStr.strip line) urls.
Proof.
  intros Hbatch Hopen Hin Hraw Hne.
  eexists. split.
  - unfold read_urls. rewrite Hbatch.
    unfold bind, do_open_lines. cbn [fst snd]. rewrite Hopen. reflexivity.
  - apply in_map. apply filter_In. split; [exact Hin |].
    rewrite Hraw. apply truthy_true_iff in Hne. rewrite Hne. reflexivity.
Qed.

End Tool.

(** ** The claims on sample inputs *)

(** C1, the claim as first stated: in [Samples.late_date_feed] the first
    item with a non-empty [pubDate] is the sixth one, which the loop over
    the first five items never reaches; [latest_date] stays absent. *)
Lemma latest_date_misses_sixth_item :
  exists r,
    validate_rss_feed unit (Samples.serve 200) (Samples.parse_as Samples.late_date_feed)
                      "http://feed.example/rss" false tt = (Normal r, tt)
    /\ latest_date r = None
    /\ ~ first_pub_date_of (rss_items Samples.late_date_feed) (latest_date r).
Proof.
  eexists. split; [reflexivity |]. split; [reflexivity |].
  intros [Hfirst _].
  specialize (Hfirst 5%nat
                (Samples.item (Some "f") (Some "Mon, 02 Nov 2026 10:00:00 GMT"))
                eq_refl).
  assert (H : latest_date
                (rss_result "http://feed.example/rss" Samples.late_date_feed)
              = Some "Mon, 02 Nov 2026 10:00:00 GMT").
  { apply Hfirst.
    - discriminate.
    - intros j earlier Hj Hnth.
      do 5 (destruct j as [| j];
            [simpl in Hnth; injection Hnth as <-; reflexivity |]).
      lia. }
  discriminate H.
Qed.

Lemma latest_date_first_of_first_five_witness :
  exists r,
    validate_rss_feed unit (Samples.serve 200) (Samples.parse_as Samples.dated_feed)
                      "http://feed.example/rss" false tt = (Normal r, tt)
    /\ first_pub_date_of (first_five (rss_items Samples.dated_feed)) (latest_date r).
Proof.
  apply (latest_date_first_of_first_five unit (Samples.serve 200)
           (Samples.parse_as Samples.dated_feed) "http://feed.example/rss" false tt
           Samples.dated_feed tt).
  - eexists. repeat split; reflexivity.
  - reflexivity.
Defined.


Lemma unknown_format_only_error_witness :
  exists r,
    validate_rss_feed unit (Samples.serve 200) (Samples.parse_as Samples.html_page)
                      "http://feed.example/" false tt = (Normal r, tt)
    /\ item_count r = 0
    /\ errors r = ["Unknown feed format: html"]
    /\ valid r = false
    /\ ~ In "Feed has fewer than 2 items" (errors r)
    /\ ~ In "No headlines found in feed" (errors r).
Proof.
  apply (unknown_format_only_error unit (Samples.serve 200)
           (Samples.parse_as Samples.html_page) "http://feed.example/" false tt
           Samples.html_page tt).
  - eexists. repeat split; reflexivity.
  - discriminate.
  - discriminate.
Defined.

Lemma sample_headlines_first_five_witness :
  exists r,
    validate_rss_feed unit (Samples.serve 200) (Samples.parse_as Samples.seven_feed)
                      "http://feed.example/rss" false tt = (Normal r, tt)
    /\ sample_headlines r = ["h1"; "h2"; "h3"; "h4"; "h5"]
    /\ length (sample_headlines r) = 5%nat.
Proof.
  destruct (sample_headlines_first_five unit (Samples.serve 200)
              (Samples.parse_as Samples.seven_feed) "http://feed.example/rss" false tt
              Samples.seven_feed tt)
    as (r & Hrun & _ & _ & _ & Hseven).
  - eexists. repeat split; reflexivity.
  - left. reflexivity.
  - exists r. split; [exact Hrun |].
    apply Hseven.
    + reflexivity.
    + intros item Hin. simpl in Hin.
      repeat (destruct Hin as [<- | Hin]; [discriminate |]).
      contradiction.
Defined.

Lemma rss_without_channel_witness :
  exists r,
    validate_rss_feed unit (Samples.serve 200) (Samples.parse_as Samples.bare_rss)
                      "http://feed.example/rss" false tt = (Normal r, tt)
    /\ title r = None
    /\ language r = None
    /\ item_count r = 0
    /\ sample_headlines r = []
    /\ latest_date r = None
    /\ errors r = ["Feed has fewer than 2 items"; "No headlines found in feed"]
    /\ valid r = false.
Proof.
  apply (rss_without_channel unit (Samples.serve 200)
           (Samples.parse_as Samples.bare_rss) "http://feed.example/rss" false tt
           Samples.bare_rss tt).
  - eexists. repeat split; reflexivity.
  - reflexivity.
  - reflexivity.
Defined.

Lemma timeout_result_witness :
  validate_rss_feed unit Samples.unreachable (Samples.parse_as Samples.two_item_feed)
                    "http://feed.example/rss" false tt =
  (Normal {| url := "http://feed.example/rss"; valid := false; title := None;
             item_count := 0; latest_date := None; sample_headlines := [];
             language := None; errors := ["Request timed out"] |}, tt).
Proof.
  apply (timeout_result unit Samples.unreachable (Samples.parse_as Samples.two_item_feed)
           "http://feed.example/rss" false tt "timed out" tt).
  reflexivity.
Defined.

(** C8, the claim as first stated: a response with status 304 is not a
    2xx response, yet [raise_for_status] accepts it; its empty body goes
    to the parser and the only entry is a parse error. *)
Lemma not_modified_is_parsed :
  exists r,
    validate_rss_feed unit (Samples.serve 304) Samples.parse_empty
                      "http://feed.example/rss" false tt = (Normal r, tt)
    /\ non_2xx (mkResponse 304 "" "http://feed.example/rss" []) = true
    /\ errors r = ["XML parse error: no element found: line 1, column 0"]
    /\ errors r <> ["HTTP error: 304"].
Proof.
  eexists. split; [reflexivity |]. split; [reflexivity |].
  split; [reflexivity |]. discriminate.
Qed.

Lemma http_error_result_witness :
  (validate_rss_feed unit (Samples.serve 404) (Samples.parse_as Samples.two_item_feed)
                     "http://feed.example/rss" false tt =
   (Normal {| url := "http://feed.example/rss"; valid := false; title := None;
              item_count := 0; latest_date := None; sample_headlines := [];
              language := None; errors := ["HTTP error: 404"] |}, tt)
   /\ "HTTP error: 404" <> "Request timed out")
  /\ validate_rss_feed unit (Samples.serve 300) (Samples.parse_as Samples.two_item_feed)
                       "http://feed.example/rss" false tt =
     (Normal (rss_result "http://feed.example/rss" Samples.two_item_feed), tt).
Proof.
  split.
  - apply (proj1 (http_error_result unit (Samples.serve 404)
                    (Samples.parse_as Samples.two_item_feed) "http://feed.example/rss"
                    false tt (mkResponse 404 "" "http://feed.example/rss" []) tt
                    eq_refl)).
    simpl. lia.
  - apply (proj2 (http_error_result unit (Samples.serve 300)
                    (Samples.parse_as Samples.two_item_feed) "http://feed.example/rss"
                    false tt (mkResponse 300 "" "http://feed.example/rss" []) tt
                    eq_refl)).
    simpl. lia.
Defined.

(** C9, the claim as first stated: a single valid feed, reported in text
    mode on a standard output that cannot encode the status mark. The
    one processed result is valid, yet the first [print] raises
    [UnicodeEncodeError] and the process ends with exit code 1, nothing
    printed. *)
Lemma valid_feed_exits_one_on_legacy_stdout :
  exists r,
    validate_rss_feed unit (Samples.serve 200) (Samples.parse_as Samples.two_item_feed)
                      "http://good.example/feed" false tt = (Normal r, tt)
    /\ valid r = true
    /\ run_main unit (Samples.serve 200) (Samples.parse_as Samples.two_item_feed)
                Samples.no_files Samples.legacy_stdout
                (mkArgs (Some "http://good.example/feed") None false false) tt
       = (1, [], tt).
Proof.
  eexists. split; [reflexivity |]. split; reflexivity.
Qed.

Lemma exit_code_reflects_validity_witness :
  exists rs w1,
    processes unit (Samples.serve_only "http://good.example/feed")
              (Samples.parse_as Samples.two_item_feed) false
              ["http://good.example/feed"; "http://bad.example/feed"] tt rs w1
    /\ Forall2 (fun u r => url r = u)
               ["http://good.example/feed"; "http://bad.example/feed"] rs
    /\ run_main unit (Samples.serve_only "http://good.example/feed")
                (Samples.parse_as Samples.two_item_feed)
                (Samples.file_with Samples.batch_lines) Samples.utf8_stdout
                (mkArgs None (Some "feeds.txt") false false) tt =
       (if forallb valid rs then 0 else 1,
        reports_of (mkArgs None (Some "feeds.txt") false false)
                   ["http://good.example/feed"; "http://bad.example/feed"] rs, w1)
    /\ (forall r, In r rs -> valid r = false ->
                  fst (fst (run_main unit (Samples.serve_only "http://good.example/feed")
                                     (Samples.parse_as Samples.two_item_feed)
                                     (Samples.file_with Samples.batch_lines)
                                     Samples.utf8_stdout
                                     (mkArgs None (Some "feeds.txt") false false) tt)) = 1).
Proof.
  destruct (proj1 (proj2 (exit_code_reflects_validity unit
                            (Samples.serve_only "http://good.example/feed")
                            (Samples.parse_as Samples.two_item_feed)
                            (Samples.file_with Samples.batch_lines)
                            Samples.utf8_stdout
                            (mkArgs None (Some "feeds.txt") false false) tt))
              ["http://good.example/feed"; "http://bad.example/feed"] ([], tt)
              eq_refl)
    as (rs & w1 & Hproc & Hurls & Hok & _).
  exists rs, w1. split; [exact Hproc |]. split; [exact Hurls |].
  apply Hok. right. apply forallb_forall. intros o _.
  unfold stdout_accepts, Samples.utf8_stdout. apply orb_true_r.
Defined.

(** The batch of the witness with [--json], on a standard output that
    cannot encode the status marks: the exit code is 1 for the invalid
    feed, and both results are in the JSON array in input order. *)
Example mixed_batch_exit_code :
  run_main unit (Samples.serve_only "http://good.example/feed")
           (Samples.parse_as Samples.two_item_feed)
           (Samples.file_with Samples.batch_lines) Samples.legacy_stdout
           (mkArgs None (Some "feeds.txt") false true) tt =
  (1,
   [OutJson
      [rss_result "http://good.example/feed" Samples.two_item_feed;
       append_error "Request timed out" (initial_result "http://bad.example/feed")]],
   tt).
Proof. reflexivity. Qed.

(** A status outside 400-599 that is not a 2xx status either: the feed in
    the body is validated as usual. *)
Example status_999_is_validated :
  validate_rss_feed unit (Samples.serve 999) (Samples.parse_as Samples.two_item_feed)
                    "http://feed.example/rss" false tt =
  (Normal (rss_result "http://feed.example/rss" Samples.two_item_feed), tt).
Proof. reflexivity. Qed.

(** The end-to-end Atom example of the specification. *)
Example atom_three_entries :
  validate_rss_feed unit (Samples.serve 200)
    (Samples.parse_as (Samples.atom [Samples.entry "a"; Samples.entry "b";
                                     Samples.entry "c"]))
    "http://feed.example/atom" false tt =
  (Normal {| url := "http://feed.example/atom"; valid := true;
             title := Some "Test Feed"; item_count := 3; latest_date := None;
             sample_headlines := ["a"; "b"; "c"]; language := None;
             errors := [] |}, tt).
Proof. reflexivity. Qed.

(** X18: without a batch file, no file is opened: the run is the same
    on every file system. *)
Theorem no_batch_reads_no_file
        (World : Type)
        (requests_get : string -> World -> (exn + Response) * World)
        (ET_fromstring : list Byte.byte -> exn + ET.Element)
        (open_lines open_lines' : string -> World -> (exn + list string) * World)
        (stdout_encodes : output -> bool)
        (args : Args) (w : World) :
  PyStr.truthy_opt (args_batch args) = false ->
  run_main World requests_get ET_fromstring open_lines stdout_encodes args w
  = run_main World requests_get ET_fromstring open_lines' stdout_encodes args w.
Proof.
  intro Hbatch.
  unfold run_main, main, read_urls. rewrite Hbatch. reflexivity.
Qed.

(** ** The further properties on sample inputs *)

Lemma valid_iff_two_items_and_headline_witness :
  exists r,
    validate_rss_feed unit (Samples.serve 200) (Samples.parse_as Samples.two_item_feed)
                      "http://feed.example/rss" false tt = (Normal r, tt)
    /\ (valid r = true <->
        (2 <= length (feed_items Samples.two_item_feed))%nat
        /\ exists item, In item (first_five (feed_items Samples.two_item_feed))
                        /\ item_title Samples.two_item_feed item <> "").
Proof.
  apply (valid_iff_two_items_and_headline unit (Samples.serve 200)
           (Samples.parse_as Samples.two_item_feed) "http://feed.example/rss" false tt
           Samples.two_item_feed tt).
  - eexists. repeat split; reflexivity.
  - left. reflexivity.
Defined.

Lemma valid_result_is_sound_witness :
  errors (rss_result "http://feed.example/rss" Samples.two_item_feed) = []
  /\ 2 <= item_count (rss_result "http://feed.example/rss" Samples.two_item_feed)
  /\ sample_headlines (rss_result "http://feed.example/rss" Samples.two_item_feed) <> []
  /\ title (rss_result "http://feed.example/rss" Samples.two_item_feed) <> None.
Proof.
  destruct (valid_result_is_sound unit (Samples.serve 200)
              (Samples.parse_as Samples.two_item_feed) "http://feed.example/rss" false tt)
    as (r & w1 & Hrun & Hsound).
  assert (E : r = rss_result "http://feed.example/rss" Samples.two_item_feed).
  { cbv in Hrun. injection Hrun as <- _. reflexivity. }
  rewrite <- E. apply Hsound. rewrite E. reflexivity.
Defined.

Lemma at_most_two_errors_witness :
  exists r w1,
    validate_rss_feed unit (Samples.serve 200) (Samples.parse_as Samples.bare_rss)
                      "http://feed.example/rss" false tt = (Normal r, w1)
    /\ (length (errors r) <= 2)%nat
    /\ (length (errors r) = 2%nat ->
        errors r = ["Feed has fewer than 2 items"; "No headlines found in feed"]).
Proof.
  apply (at_most_two_errors unit (Samples.serve 200)
           (Samples.parse_as Samples.bare_rss) "http://feed.example/rss" false tt).
Defined.

Lemma parse_error_result_witness :
  validate_rss_feed unit (Samples.serve 200) Samples.parse_empty
                    "http://feed.example/rss" false tt =
  (Normal {| url := "http://feed.example/rss"; valid := false; title := None;
             item_count := 0; latest_date := None; sample_headlines := [];
             language := None;
             errors := ["XML parse error: no element found: line 1, column 0"] |}, tt).
Proof.
  apply (parse_error_result unit (Samples.serve 200) Samples.parse_empty
           "http://feed.example/rss" false tt
           (mkResponse 200 "" "http://feed.example/rss" []) tt
           "no element found: line 1, column 0").
  - reflexivity.
  - reflexivity.
  - reflexivity.
Defined.

Lemma uncategorized_error_result_witness :
  validate_rss_feed unit Samples.refused (Samples.parse_as Samples.two_item_feed)
                    "http://feed.example/rss" false tt =
  (Normal {| url := "http://feed.example/rss"; valid := false; title := None;
             item_count := 0; latest_date := None; sample_headlines := [];
             language := None; errors := ["Error: Connection refused"] |}, tt).
Proof.
  apply (uncategorized_error_result unit Samples.refused
           (Samples.parse_as Samples.two_item_feed) "http://feed.example/rss" false tt
           tt "Connection refused").
  left. reflexivity.
Defined.

Lemma atom_sets_title_only_witness :
  exists r,
    validate_rss_feed unit (Samples.serve 200)
      (Samples.parse_as (Samples.atom [Samples.entry "a"; Samples.entry "b"]))
      "http://feed.example/atom" false tt = (Normal r, tt)
    /\ title r = Some "Test Feed"
    /\ language r = None
    /\ latest_date r = None.
Proof.
  destruct (atom_sets_title_only unit (Samples.serve 200)
              (Samples.parse_as (Samples.atom [Samples.entry "a"; Samples.entry "b"]))
              "http://feed.example/atom" false tt
              (Samples.atom [Samples.entry "a"; Samples.entry "b"]) tt)
    as (r & Hrun & Htitle & _ & Hlang & Hdate).
  - eexists. repeat split; reflexivity.
  - reflexivity.
  - exists r. repeat split; assumption.
Defined.

Lemma rss_channel_title_and_language_witness :
  exists r,
    validate_rss_feed unit (Samples.serve 200) (Samples.parse_as Samples.two_item_feed)
                      "http://feed.example/rss" false tt = (Normal r, tt)
    /\ title r = Some "News"
    /\ language r = Some "".
Proof.
  destruct (rss_channel_title_and_language unit (Samples.serve 200)
              (Samples.parse_as Samples.two_item_feed) "http://feed.example/rss"
              false tt Samples.two_item_feed tt
              (ET.Elem "channel" None
                 [ET.Elem "title" (Some "News") [];
                  Samples.item (Some "first") None;
                  Samples.item (Some "second") None]))
    as (r & Hrun & Htitle & _ & _ & Hlang & _).
  - eexists. repeat split; reflexivity.
  - reflexivity.
  - reflexivity.
  - exists r. split; [exact Hrun |]. split; [exact Htitle |].
    apply Hlang. reflexivity.
Defined.

Lemma only_first_five_items_matter_witness :
  exists r r',
    validate_rss_feed unit (Samples.serve_two "http://long.example/feed")
      (Samples.parse_two Samples.late_date_feed Samples.five_feed)
      "http://long.example/feed" false tt = (Normal r, tt)
    /\ validate_rss_feed unit (Samples.serve_two "http://long.example/feed")
         (Samples.parse_two Samples.late_date_feed Samples.five_feed)
         "http://short.example/feed" false tt = (Normal r', tt)
    /\ sample_headlines r = sample_headlines r'
    /\ latest_date r = latest_date r'.
Proof.
  apply (only_first_five_items_matter unit
           (Samples.serve_two "http://long.example/feed")
           (Samples.parse_two Samples.late_date_feed Samples.five_feed)
           "http://long.example/feed" false tt Samples.late_date_feed tt
           "http://short.example/feed" tt Samples.five_feed tt).
  - eexists. repeat split; reflexivity.
  - eexists. repeat split; reflexivity.
  - reflexivity.
  - reflexivity.
  - reflexivity.
Defined.

Lemma empty_batch_exits_zero_witness :
  run_main unit Samples.unreachable Samples.parse_empty
           (Samples.file_with Samples.comment_lines) Samples.legacy_stdout
           (mkArgs None (Some "feeds.txt") false false) tt = (0, [], tt).
Proof.
  apply (empty_batch_exits_zero unit Samples.unreachable Samples.parse_empty
           (Samples.file_with Samples.comment_lines) Samples.legacy_stdout
           (mkArgs None (Some "feeds.txt") false false) tt Samples.comment_lines tt).
  - reflexivity.
  - reflexivity.
  - intros line Hin. simpl in Hin.
    destruct Hin as [<- | [<- | [<- | []]]];
      [right; reflexivity | left; reflexivity | left; reflexivity].
Defined.

Lemma urls_are_non_empty_and_stripped_witness :
  Forall (fun u => u <> "") ["http://good.example/feed"; "http://bad.example/feed"]
  /\ (PyStr.truthy_opt (Some "feeds.txt") = true ->
      Forall (fun u => PyStr.strip u = u)
             ["http://good.example/feed"; "http://bad.example/feed"]).
Proof.
  apply (urls_are_non_empty_and_stripped unit (Samples.file_with Samples.batch_lines)
           (mkArgs None (Some "feeds.txt") false false) tt
           ["http://good.example/feed"; "http://bad.example/feed"] ([], tt)).
  reflexivity.
Defined.

Lemma flags_do_not_change_exit_status_witness :
  fst (fst (run_main unit (Samples.serve_only "http://good.example/feed")
                     (Samples.parse_as Samples.two_item_feed)
                     (Samples.file_with Samples.batch_lines) Samples.utf8_stdout
                     (mkArgs None (Some "feeds.txt") true false) tt))
  = fst (fst (run_main unit (Samples.serve_only "http://good.example/feed")
                       (Samples.parse_as Samples.two_item_feed)
                       (Samples.file_with Samples.batch_lines) Samples.utf8_stdout
                       (mkArgs None (Some "feeds.txt") false true) tt))
  /\ snd (run_main unit (Samples.serve_only "http://good.example/feed")
                   (Samples.parse_as Samples.two_item_feed)
                   (Samples.file_with Samples.batch_lines) Samples.utf8_stdout
                   (mkArgs None (Some "feeds.txt") true false) tt)
     = snd (run_main unit (Samples.serve_only "http://good.example/feed")
                     (Samples.parse_as Samples.two_item_feed)
                     (Samples.file_with Samples.batch_lines) Samples.utf8_stdout
                     (mkArgs None (Some "feeds.txt") false true) tt).
Proof.
  apply (flags_do_not_change_exit_status unit
           (Samples.serve_only "http://good.example/feed")
           (Samples.parse_as Samples.two_item_feed)
           (Samples.file_with Samples.batch_lines) Samples.utf8_stdout
           (mkArgs None (Some "feeds.txt") true false)
           (mkArgs None (Some "feeds.txt") false true) tt).
  - intro o. unfold stdout_accepts, Samples.utf8_stdout. apply orb_true_r.
  - reflexivity.
  - reflexivity.
Defined.

Lemma batch_overrides_url_witness :
  run_main unit (Samples.serve_only "http://good.example/feed")
           (Samples.parse_as Samples.two_item_feed)
           (Samples.file_with Samples.batch_lines) Samples.utf8_stdout
           (mkArgs (Some "http://other.example/feed") (Some "feeds.txt") false false) tt
  = run_main unit (Samples.serve_only "http://good.example/feed")
             (Samples.parse_as Samples.two_item_feed)
             (Samples.file_with Samples.batch_lines) Samples.utf8_stdout
             (mkArgs None (Some "feeds.txt") false false) tt.
Proof.
  apply (batch_overrides_url unit (Samples.serve_only "http://good.example/feed")
           (Samples.parse_as Samples.two_item_feed)
           (Samples.file_with Samples.batch_lines) Samples.utf8_stdout
           (Some "http://other.example/feed") None (Some "feeds.txt") false false tt).
  reflexivity.
Defined.

Lemma no_batch_reads_no_file_witness :
  run_main unit (Samples.serve_only "http://good.example/feed")
           (Samples.parse_as Samples.two_item_feed) Samples.no_files
           Samples.utf8_stdout
           (mkArgs (Some "http://good.example/feed") None false false) tt
  = run_main unit (Samples.serve_only "http://good.example/feed")
             (Samples.parse_as Samples.two_item_feed)
             (Samples.file_with Samples.batch_lines) Samples.utf8_stdout
             (mkArgs (Some "http://good.example/feed") None false false) tt.
Proof.
  apply (no_batch_reads_no_file unit (Samples.serve_only "http://good.example/feed")
           (Samples.parse_as Samples.two_item_feed) Samples.no_files
           (Samples.file_with Samples.batch_lines) Samples.utf8_stdout
           (mkArgs (Some "http://good.example/feed") None false false) tt).
  reflexivity.
Defined.

Lemma only_unindented_comments_are_skipped_witness :
  exists urls,
    read_urls unit (Samples.file_with Samples.indented_comment_lines)
              (mkArgs None (Some "feeds.txt") false false) ([], tt)
    = (Normal urls, ([], tt))
    /\ In "# draft" urls.
Proof.
  apply (only_unindented_comments_are_skipped unit
           (Samples.file_with Samples.indented_comment_lines)
           (mkArgs None (Some "feeds.txt") false false) tt
           Samples.indented_comment_lines tt (Samples.line "  # draft")).
  - reflexivity.
  - reflexivity.
  - right. left. reflexivity.
  - reflexivity.
  - discriminate.
Defined.

